(** * anyway / infographics_utils.py

    A shallow embedding of the infographics module of the "anyway"
    road-accident service, and the properties of its widget pipeline,
    its statistic functions and its request context builder.

    Python values are modelled as follows.
    - [int] is [Z]; [str] is [string] holding the UTF-8 bytes of the text
      (substring and prefix tests on the bytes agree with the tests on the
      code points, UTF-8 being self-synchronising);
    - a [dict] used as a JSON object is a [gmap string value]; the
      [defaultdict] whose iteration order reaches the output is an
      association list in insertion order;
    - a call that can raise yields an [outcome]: [Return v] or [Raise e];
    - the relational store is a record of tables, each a list of rows. *)

From Stdlib Require Import ZArith QArith Qround List String Ascii Lia Sorting.Sorted.
From stdpp Require Import gmap strings list pretty.

Set Warnings "-register-all".
Local Open Scope string_scope.
Local Open Scope list_scope.
Local Open Scope Z_scope.

(** ** Python values, exceptions and outcomes *)

Module Py.

Inductive exn_class :=
  | ValueError
  | TypeError
  | AttributeError
  | KeyError
  | DatabaseError
  | OtherError (cls : string).
(* every class here derives from [Exception] *)

(** An exception object: its class and its [__cause__] (rendered), which
    is [None] unless the exception was raised [from] another one. *)
Record exn := Exn { exn_cls : exn_class; exn_cause : option string }.

Definition raised (c : exn_class) : exn := Exn c None.

Inductive outcome (A : Type) :=
  | Return (a : A)
  | Raise (e : exn).
Arguments Return {A} a.
Arguments Raise {A} e.

Definition outcome_bind {A B} (f : A -> outcome B) (c : outcome A) : outcome B :=
  match c with
  | Return a => f a
  | Raise e => Raise e
  end.

#[global] Instance outcome_ret : MRet outcome := fun _ a => Return a.
#[global] Instance outcome_mbind : MBind outcome := fun _ _ f c => outcome_bind f c.

(** JSON-like Python values.  A [float] is read as the rational it
    denotes. *)
Inductive value :=
  | VNone
  | VBool (b : bool)
  | VInt (z : Z)
  | VStr (s : string)
  | VFloat (q : Q)
  | VList (l : list value)
  | VTuple (l : list value)
  | VDict (d : gmap string value).

(** [bool(d)] for a dict. *)
Definition dict_truthy (d : gmap string value) : bool := negb (Nat.eqb (size d) 0).

(** [bool(v)]: the test behind [if v:]. *)
Definition truthy (v : value) : bool :=
  match v with
  | VNone => false
  | VBool b => b
  | VInt z => negb (Z.eqb z 0)
  | VStr s => negb (Nat.eqb (String.length s) 0)
  | VFloat q => negb (Qeq_bool q 0)
  | VList l | VTuple l => negb (Nat.eqb (List.length l) 0)
  | VDict d => dict_truthy d
  end.

(** [v is None] *)
Definition is_None (v : value) : bool :=
  match v with VNone => true | _ => false end.

(** [v != s] for a string literal [s]: a value of any other type differs
    from every string. *)
Definition ne_str (v : value) (s : string) : bool :=
  match v with
  | VStr s' => negb (String.eqb s' s)
  | _ => true
  end.

(** [needle in hay] on strings. *)
Fixpoint contains (needle hay : string) : bool :=
  String.prefix needle hay ||
  match hay with
  | EmptyString => false
  | String _ rest => contains needle rest
  end.

End Py.
Import Py.

(** ** Data model *)

(** [datetime.date] *)
Record date := Date { year : Z; month : Z; day : Z }.

(** [class RequestParams].  The constructor stores [resolution,], a
    one-element tuple, in the attribute [resolution], and the event id in
    the attribute [news_flash_is]. *)
Record RequestParams := {
  news_flash_is : Z;
  location_text : string;
  location_info : gmap string value;
  resolution : value;
  gps : gmap string value;
  start_time : date;
  end_time : date
}.

Definition RequestParams_init (news_flash_id : Z) (location_text : string)
    (location_info : gmap string value) (resolution : value)
    (gps : gmap string value) (start_time end_time : date) : RequestParams :=
  {| news_flash_is := news_flash_id;
     location_text := location_text;
     location_info := location_info;
     resolution := VTuple [resolution];
     gps := gps;
     start_time := start_time;
     end_time := end_time |}.

(** ** Widgets *)

Module Widgets.

Inductive WidgetId :=
  | accident_count_by_severity
  | most_severe_accidents_table
  | most_severe_accidents
  | street_view
  | head_on_collisions_comparison
  | accident_count_by_accident_type
  | accidents_heat_map
  | accident_count_by_accident_year
  | injured_count_by_accident_year
  | accident_count_by_day_night
  | accidents_count_by_hour
  | accident_count_by_road_light
  | top_road_segments_accidents_per_km
  | injured_count_per_age_group
  | vision_zero
  | accident_count_by_driver_type
  | accident_count_by_car_type
  | injured_accidents_with_pedestrians
  | accident_severity_by_cross_location
  | motorcycle_accidents_vs_all_accidents
  | accidents_count_pedestrians_per_vehicle_street_vs_all.

Definition get_rank (w : WidgetId) : Z :=
  match w with
  | accident_count_by_severity => 1
  | most_severe_accidents_table => 2
  | most_severe_accidents => 3
  | street_view => 4
  | head_on_collisions_comparison => 5
  | accident_count_by_accident_type => 6
  | accidents_heat_map => 7
  | accident_count_by_accident_year => 8
  | injured_count_by_accident_year => 9
  | accident_count_by_day_night => 10
  | accidents_count_by_hour => 11
  | accident_count_by_road_light => 12
  | top_road_segments_accidents_per_km => 13
  | injured_count_per_age_group => 14
  | vision_zero => 15
  | accident_count_by_driver_type => 16
  | accident_count_by_car_type => 17
  | injured_accidents_with_pedestrians => 18
  | accident_severity_by_cross_location => 19
  | motorcycle_accidents_vs_all_accidents => 20
  | accidents_count_pedestrians_per_vehicle_street_vs_all => 21
  end.

Definition get_name (w : WidgetId) : string :=
  match w with
  | accident_count_by_severity => "accident_count_by_severity"
  | most_severe_accidents_table => "most_severe_accidents_table"
  | most_severe_accidents => "most_severe_accidents"
  | street_view => "street_view"
  | head_on_collisions_comparison => "head_on_collisions_comparison"
  | accident_count_by_accident_type => "accident_count_by_accident_type"
  | accidents_heat_map => "accidents_heat_map"
  | accident_count_by_accident_year => "accident_count_by_accident_year"
  | injured_count_by_accident_year => "injured_count_by_accident_year"
  | accident_count_by_day_night => "accident_count_by_day_night"
  | accidents_count_by_hour => "accidents_count_by_hour"
  | accident_count_by_road_light => "accident_count_by_road_light"
  | top_road_segments_accidents_per_km => "top_road_segments_accidents_per_km"
  | injured_count_per_age_group => "injured_count_per_age_group"
  | vision_zero => "vision_zero"
  | accident_count_by_driver_type => "accident_count_by_driver_type"
  | accident_count_by_car_type => "accident_count_by_car_type"
  | injured_accidents_with_pedestrians => "injured_accidents_with_pedestrians"
  | accident_severity_by_cross_location => "accident_severity_by_cross_location"
  | motorcycle_accidents_vs_all_accidents => "motorcycle_accidents_vs_all_accidents"
  | accidents_count_pedestrians_per_vehicle_street_vs_all =>
      "accidents_count_pedestrians_per_vehicle_street_vs_all"
  end.

(** [@dataclass class Widget], with every attribute assigned.  [text] is
    annotated [str] and receives mappings; it is any value, [VNone] when
    absent.  [meta] is [Optional[Dict]]. *)
Record Widget := {
  request_params : option RequestParams;
  name : string;
  rank : Z;
  items : value;
  text : value;
  meta : option (gmap string value)
}.

(** [Widget.serialize].  Each [let] is one statement of the method; the
    two nested dicts are written into [output] once filled.  (When
    [self.meta] is non-empty the method stores that very dict, so the
    rank is written into the widget's own [meta] too.) *)
Definition serialize (self : Widget) : value :=
  let output : gmap string value := ∅ in
  let output := <["name" := VStr (name self)]> output in
  let data : gmap string value := ∅ in
  let data := <["items" := items self]> data in
  let data := if truthy (text self) then <["text" := text self]> data else data in
  let output_meta : gmap string value :=
    match meta self with
    | Some m => if dict_truthy m then m else ∅
    | None => ∅
    end in
  let output_meta := <["rank" := VInt (rank self)]> output_meta in
  let output := <["data" := VDict data]> output in
  let output := <["meta" := VDict output_meta]> output in
  VDict output.

(** [class WidgetDef].  The generator receives the request parameters
    (possibly [None]) and the descriptor; of the descriptor it can only
    use the static information, passed here as the widget id. *)
Record WidgetDef := {
  widget_id : WidgetId;
  generate_items : option RequestParams -> WidgetId -> outcome Widget;
  is_included_in_response : option (Widget -> bool);
  is_included_in_cache : bool
}.

(** [WidgetDef.__init__] with its defaults
    [is_included_in_response=None, is_included_in_cache=True]. *)
Definition WidgetDef_init (widget_id : WidgetId)
    (generate_items : option RequestParams -> WidgetId -> outcome Widget) : WidgetDef :=
  {| widget_id := widget_id;
     generate_items := generate_items;
     is_included_in_response := None;
     is_included_in_cache := true |}.

(** The body of the [for] loop of [generate_widgets], [res] being the
    list built so far.  [p and p(w)] is false when [p] is [None]. *)
Fixpoint generate_loop (request_params : option RequestParams)
    (selected : list WidgetDef) (res : list value) : outcome (list value) :=
  match selected with
  | [] => Return res
  | item :: rest =>
      item_widget ← generate_items item request_params (widget_id item);
      let res :=
        match is_included_in_response item with
        | Some included =>
            if included item_widget then res ++ [serialize item_widget] else res
        | None => res
        end in
      generate_loop request_params rest res
  end.

Definition generate_widgets (request_params : option RequestParams)
    (widgets_def : list WidgetDef) (to_cache : bool) : outcome (list value) :=
  generate_loop request_params
    (List.filter (fun wd => Bool.eqb (is_included_in_cache wd) to_cache) widgets_def) [].

(** What one descriptor contributes to the output, given the widget its
    generator produced. *)
Definition contribution (wd : WidgetDef) (w : Widget) : list value :=
  match is_included_in_response wd with
  | Some included => if included w then [serialize w] else []
  | None => []
  end.

(** The descriptors whose cache eligibility is the requested one. *)
Definition selected (widgets_def : list WidgetDef) (to_cache : bool) : list WidgetDef :=
  List.filter (fun wd => Bool.eqb (is_included_in_cache wd) to_cache) widgets_def.

Fixpoint contributions (wds : list WidgetDef) (ws : list Widget) : list value :=
  match wds, ws with
  | wd :: wds, w :: ws => contribution wd w ++ contributions wds ws
  | _, _ => []
  end.

End Widgets.

(** ** The relational store *)

Module Store.

(** A [pandas.Timestamp]: a calendar date and the nanoseconds elapsed
    since midnight. *)
Record Timestamp := { ts_date : date; ts_nanos : Z }.

Definition date_compare (a b : date) : comparison :=
  match year a ?= year b with
  | Eq => match month a ?= month b with
          | Eq => day a ?= day b
          | c => c
          end
  | c => c
  end.

Definition ts_compare (a b : Timestamp) : comparison :=
  match date_compare (ts_date a) (ts_date b) with
  | Eq => ts_nanos a ?= ts_nanos b
  | c => c
  end.

Definition ts_leb (a b : Timestamp) : bool :=
  match ts_compare a b with Gt => false | _ => true end.

(** A date bound of a query is the timestamp of its midnight. *)
Definition midnight (d : date) : Timestamp := {| ts_date := d; ts_nanos := 0 |}.

(** The columns of [AccidentMarkerView] and [RoadSegments] that the
    queries below read.  A nullable column is an [option]. *)
Record AccidentMarker := {
  accident_timestamp : Timestamp;
  road1 : option Z;
  road_segment_number : option Z;
  road_segment_name : option string
}.

Record RoadSegment := {
  road : option Z;
  segment : option Z;
  from_km : Q;
  to_km : Q
}.

(** A row of [NewsFlash]: the attributes read by name in the source, and
    the remaining columns by column name. *)
Record NewsFlash := {
  nf_id : Z;
  nf_resolution : option string;
  nf_lon : value;
  nf_lat : value;
  nf_columns : gmap string value
}.

Record db := {
  news_flash : list NewsFlash;
  accident_marker_view : list AccidentMarker;
  road_segments : list RoadSegment
}.

End Store.

(** ** Statistic functions *)

Module AccidentType.

(** A record [{"accident_type": ..., "count": ...}] of the grouped count. *)
Record item := { accident_type : string; count : Z }.

Definition collision : string := "התנגשות".

(** One iteration of the loop over [all_accident_type_count]. *)
Definition merge_step (merged : list item) (it : item) : list item :=
  if contains collision (accident_type it) then
    match merged with
    | first :: others =>
        {| accident_type := accident_type first; count := count first + count it |} :: others
    | [] => merged
    end
  else merged ++ [it].

Definition merge_accident_type_count (all_accident_type_count : list item) : list item :=
  fold_left merge_step all_accident_type_count [{| accident_type := collision; count := 0 |}].

Definition total (l : list item) : Z := fold_right (fun it acc => count it + acc) 0 l.

(** The categories that go to the collision bucket. *)
Definition is_collision (it : item) : bool := contains collision (accident_type it).

Section WithQueryLayer.

(** [get_accidents_stats] grouped by ["accident_type_hebrew"] over
    [AccidentMarkerView]: the query layer, which answers with the grouped
    records or raises. *)
Variable get_accidents_stats :
  gmap string value -> date -> date -> outcome (list item).

Definition get_accident_count_by_accident_type (location_info : gmap string value)
    (start_time end_time : date) : outcome (list item) :=
  all_accident_type_count ← get_accidents_stats location_info start_time end_time;
  mret (merge_accident_type_count all_accident_type_count).

End WithQueryLayer.

End AccidentType.

Module AgeGroup.

(** A record [{"age_group": ..., "count": ...}]. *)
Record item := { age_group : string; count : Z }.

Definition range_dict : list (Z * Z) := [(0, 14); (15, 24); (25, 64); (65, 200)].

(** [defaultdict(int)], in insertion order. *)
Definition defaultdict := list (string * Z).

Fixpoint dd_lookup (k : string) (d : defaultdict) : option Z :=
  match d with
  | [] => None
  | (k', v) :: rest => if String.eqb k' k then Some v else dd_lookup k rest
  end.

(** [d[k]] read: a missing key is inserted with [int() = 0]. *)
Definition dd_getitem (k : string) (d : defaultdict) : Z * defaultdict :=
  match dd_lookup k d with
  | Some v => (v, d)
  | None => (0, d ++ [(k, 0)])
  end.

(** [d[k] = v] *)
Fixpoint dd_setitem (k : string) (v : Z) (d : defaultdict) : defaultdict :=
  match d with
  | [] => [(k, v)]
  | (k', v') :: rest =>
      if String.eqb k' k then (k', v) :: rest else (k', v') :: dd_setitem k v rest
  end.

(** [d[k] += c] *)
Definition dd_iadd (k : string) (c : Z) (d : defaultdict) : defaultdict :=
  let '(v, d) := dd_getitem k d in dd_setitem k (v + c) d.

(** [del d[k]], for a key that is present. *)
Fixpoint dd_delitem (k : string) (d : defaultdict) : defaultdict :=
  match d with
  | [] => []
  | (k', v) :: rest => if String.eqb k' k then rest else (k', v) :: dd_delitem k rest
  end.

Definition is_digit (c : ascii) : bool :=
  (48 <=? nat_of_ascii c)%nat && (nat_of_ascii c <=? 57)%nat.

Definition two (a b : ascii) : string := String a (String b EmptyString).

(** [re.match("([0-9]{2})\\-([0-9]{2})", s)], then [.groups()]: the
    pattern is anchored at the start only. *)
Definition match_range (s : string) : option (list string) :=
  match s with
  | String a (String b (String sep (String c (String d _)))) =>
      if is_digit a && is_digit b && Ascii.eqb sep "-" && is_digit c && is_digit d
      then Some [two a b; two c d] else None
  | _ => None
  end.

(** [re.match("([0-9]{2})\\+", s)], then [.group(1)]. *)
Definition match_plus (s : string) : option string :=
  match s with
  | String a (String b (String sep _)) =>
      if is_digit a && is_digit b && Ascii.eqb sep "+" then Some (two a b) else None
  | _ => None
  end.

(** [int(x)] where [x] is a matched group or already the integer 200. *)
Inductive raw_age := RawStr (s : string) | RawInt (z : Z).

Fixpoint int_of_digits (acc : Z) (s : string) : Z :=
  match s with
  | EmptyString => acc
  | String c rest => int_of_digits (10 * acc + (Z.of_nat (nat_of_ascii c) - 48)) rest
  end.

Definition int_ (x : raw_age) : Z :=
  match x with
  | RawStr s => int_of_digits 0 s
  | RawInt z => z
  end.

(** [f"{n:02}"] for [0 <= n]. *)
Definition format_02 (n : Z) : string :=
  let s := pretty n in
  if (String.length s <? 2)%nat then "0" +:+ s else s.

(** The parsing part of the loop body: [None] is the path to
    ["unknown"], otherwise the pair [min_age_raw, max_age_raw]. *)
Definition parse_age_range (age_range : string) : option (raw_age * raw_age) :=
  match match_range age_range with
  | Some regex_age_matches =>
      match regex_age_matches with
      | [min_age_raw; max_age_raw] => Some (RawStr min_age_raw, RawStr max_age_raw)
      | _ => None
      end
  | None =>
      match match_plus age_range with
      | Some g => Some (RawStr g, RawInt 200)
      | None => None
      end
  end.

(** The inner [for item in range_dict.items()] with its [break]: the
    label of the first range holding both ages, if any. *)
Fixpoint find_bucket (ranges : list (Z * Z)) (min_age max_age : Z) : option string :=
  match ranges with
  | [] => None
  | (item_min_range, item_max_range) :: rest =>
      if (item_min_range <=? min_age) && (min_age <=? item_max_range)
         && (item_min_range <=? max_age) && (max_age <=? item_max_range)
      then Some (format_02 item_min_range +:+ "-" +:+ format_02 item_max_range)
      else find_bucket rest min_age max_age
  end.

(** One iteration of the loop over [data_of_ages]. *)
Definition age_step (d : defaultdict) (age_range_and_count : item) : defaultdict :=
  match parse_age_range (age_group age_range_and_count) with
  | None => dd_iadd "unknown" (count age_range_and_count) d
  | Some (min_age_raw, max_age_raw) =>
      match find_bucket range_dict (int_ min_age_raw) (int_ max_age_raw) with
      | Some string_age_range => dd_iadd string_age_range (count age_range_and_count) d
      | None => d
      end
  end.

Definition filter_and_group_injured_count_per_age_group (data_of_ages : list item)
    : list item :=
  let d := fold_left age_step data_of_ages [] in
  let '(v, d) := dd_getitem "65-200" d in
  let d := dd_setitem "65+" v d in
  let d := dd_delitem "65-200" d in
  List.map (fun kv => {| age_group := fst kv; count := snd kv |}) d.

Definition total (l : list item) : Z := fold_right (fun it acc => count it + acc) 0 l.

(** The count reported for bucket [k]: 0 when the output has no such
    entry. *)
Fixpoint count_of (k : string) (l : list item) : Z :=
  match l with
  | [] => 0
  | it :: rest => if String.eqb (age_group it) k then count it else count_of k rest
  end.

(** The bucket an age-range string belongs to, in the words of the
    specification: a string that does not start with "NN-NN" or "NN+" is
    "unknown"; a parsed range lying inside one of 0-14, 15-24, 25-64,
    65-200 belongs to that bucket, the last one under the label "65+";
    any other parsed range belongs to no bucket. *)
Definition inside (lo hi : Z) (min_age max_age : Z) : bool :=
  (lo <=? min_age) && (min_age <=? hi) && (lo <=? max_age) && (max_age <=? hi).

Definition spec_bucket (age_range : string) : option string :=
  match parse_age_range age_range with
  | None => Some "unknown"
  | Some (min_age, max_age) =>
      let min_age := int_ min_age in
      let max_age := int_ max_age in
      if inside 0 14 min_age max_age then Some "00-14"
      else if inside 15 24 min_age max_age then Some "15-24"
      else if inside 25 64 min_age max_age then Some "25-64"
      else if inside 65 200 min_age max_age then Some "65+"
      else None
  end.

(** The key under which the loop of the source accumulates a record. *)
Definition loop_key (age_range : string) : option string :=
  match parse_age_range age_range with
  | None => Some "unknown"
  | Some (min_age_raw, max_age_raw) =>
      find_bucket range_dict (int_ min_age_raw) (int_ max_age_raw)
  end.

Definition loop_keys : list string := ["00-14"; "15-24"; "25-64"; "65-200"; "unknown"].

(** The label of the output for a key of the loop. *)
Definition relabel (k : string) : string := if String.eqb k "65-200" then "65+" else k.

(** The input records that the loop accumulates under some key. *)
Definition kept (data_of_ages : list item) : list item :=
  List.filter (fun it => match loop_key (age_group it) with
                         | Some _ => true
                         | None => false
                         end) data_of_ages.

Definition keys (d : defaultdict) : list string := List.map fst d.

Definition dd_get (k : string) (d : defaultdict) : Z := default 0 (dd_lookup k d).

Definition sum_values (d : defaultdict) : Z := fold_right (fun kv acc => snd kv + acc) 0 d.

Definition to_item (kv : string * Z) : item := {| age_group := fst kv; count := snd kv |}.

(** The dictionary from which the result is listed. *)
Definition final_dict (data : list item) : defaultdict :=
  let d0 := fold_left age_step data [] in
  dd_delitem "65-200"
    (dd_setitem "65+" (dd_get "65-200" d0) (snd (dd_getitem "65-200" d0))).

(** The input records accumulated under key [k] by the loop. *)
Definition keyed (k : string) (data_of_ages : list item) : list item :=
  List.filter (fun it => match loop_key (age_group it) with
                         | Some k' => String.eqb k' k
                         | None => false
                         end) data_of_ages.

(** The input records attributed to bucket [k]. *)
Definition attributed_to (k : string) (data_of_ages : list item) : list item :=
  List.filter (fun it => match spec_bucket (age_group it) with
                         | Some k' => String.eqb k' k
                         | None => false
                         end) data_of_ages.

(** The input records attributed to some bucket. *)
Definition attributed (data_of_ages : list item) : list item :=
  List.filter (fun it => match spec_bucket (age_group it) with
                         | Some _ => true
                         | None => false
                         end) data_of_ages.

Definition buckets : list string := ["00-14"; "15-24"; "25-64"; "65+"; "unknown"].

End AgeGroup.

Module TopSegments.

Definition inter_city_road : string := "כביש בינעירוני".


(** A record of the result: [accidents_per_km] is the [Numeric(10, 4)]
    value counted in ten-thousandths. *)
Record record := {
  road_segment_name : option string;
  total_accidents : Z;
  segment_length : Q;
  accidents_per_km : Z
}.

(** The function answers [{}] or the list of records of the query. *)
Inductive result :=
  | EmptyDict
  | Records (rows : list record).


(** [get_query(table_obj=AccidentMarkerView, filters=None, ...)]: with
    no filters, only the two bounds on [accident_timestamp] remain, each
    applied when the bound is given. *)
Definition get_query (table : list Store.AccidentMarker)
    (start_time end_time : option date) : list Store.AccidentMarker :=
  let query := table in
  let query :=
    match start_time with
    | Some s => List.filter
        (fun a => Store.ts_leb (Store.midnight s) (Store.accident_timestamp a)) query
    | None => query
    end in
  let query :=
    match end_time with
    | Some e => List.filter
        (fun a => Store.ts_leb (Store.accident_timestamp a) (Store.midnight e)) query
    | None => query
    end in
  query.

(** [=] between two nullable integer columns. *)
Definition sql_eq (a b : option Z) : bool :=
  match a, b with
  | Some x, Some y => x =? y
  | _, _ => false
  end.

(** [AccidentMarkerView.road1 == v] for a Python value [v]: a number is
    compared with the column, [None] renders [IS NULL], and the store
    rejects a comparison of the integer column with anything else. *)
Definition road1_is (v : value) : outcome (option Z -> bool) :=
  match v with
  | VInt z => Return (fun c => sql_eq c (Some z))
  | VFloat q => Return (fun c => match c with
                                 | Some x => Qeq_bool (inject_Z x) q
                                 | None => false
                                 end)
  | VNone => Return (fun c => match c with None => true | Some _ => false end)
  | _ => Raise (raised DatabaseError)
  end.

Definition option_string_eqb (a b : option string) : bool :=
  match a, b with
  | Some x, Some y => String.eqb x y
  | None, None => true
  | _, _ => false
  end.

(** The [GROUP BY] key and, per group, [count(road_segment_name)]. *)
Definition group_key : Type := option string * Q * Q.

Definition key_eqb (a b : group_key) : bool :=
  let '(n1, f1, t1) := a in
  let '(n2, f2, t2) := b in
  option_string_eqb n1 n2 && Qeq_bool f1 f2 && Qeq_bool t1 t2.

Definition counted (k : group_key) : Z :=
  match k with
  | (Some _, _, _) => 1
  | (None, _, _) => 0
  end.

Fixpoint add_to_group (k : group_key) (groups : list (group_key * Z))
    : list (group_key * Z) :=
  match groups with
  | [] => [(k, counted k)]
  | (k', n) :: rest =>
      if key_eqb k' k then (k', n + counted k) :: rest
      else (k', n) :: add_to_group k rest
  end.

Definition group_by (joined : list (Store.AccidentMarker * Store.RoadSegment))
    : list (group_key * Z) :=
  fold_left
    (fun groups row =>
       add_to_group (Store.road_segment_name (fst row),
                     Store.from_km (snd row), Store.to_km (snd row)) groups)
    joined [].

(** Rounding to the nearest integer, ties away from zero. *)
Definition round_half_away (q : Q) : Z :=
  let n := Qnum q in
  let d := Z.pos (Qden q) in
  Z.sgn n * ((2 * Z.abs n + d) / (2 * d)).

(** [cast(x, Numeric(10, 4))]: four decimals, at most ten digits. *)
Definition numeric_10_4 (x : Q) : outcome Z :=
  let u := round_half_away (x * 10000) in
  if Z.abs u <? 10 ^ 10 then Return u else Raise (raised DatabaseError).

(** The projection of one group; a segment of length zero is a division
    by zero, which the store reports as an error. *)
Definition project (g : group_key * Z) : outcome record :=
  let '((name, from_km, to_km), n) := g in
  let length := (to_km - from_km)%Q in
  if Qeq_bool length 0 then Raise (raised DatabaseError)
  else
    per_km ← numeric_10_4 (inject_Z n / length);
    mret {| road_segment_name := name;
            total_accidents := n;
            segment_length := length;
            accidents_per_km := per_km |}.

(** [ORDER BY accidents_per_km DESC] *)
Fixpoint insert_desc (r : record) (l : list record) : list record :=
  match l with
  | [] => [r]
  | x :: rest =>
      if accidents_per_km x <=? accidents_per_km r then r :: l
      else x :: insert_desc r rest
  end.

Definition order_by_desc (l : list record) : list record :=
  fold_right insert_desc [] l.

(** [LIMIT limit]; the store rejects a negative limit. *)
Definition limit_ (limit : Z) (l : list record) : outcome (list record) :=
  if limit <? 0 then Raise (raised DatabaseError)
  else Return (firstn (Z.to_nat limit) l).

(** [get_top_road_segments_accidents_per_km].  The query joins the
    accidents of the time window with the segments on road and segment
    number, keeps the road of [location_info["road1"]], groups, projects,
    orders and limits.  Its filter [road_segment_name is not None] is
    evaluated by Python on the column object: it is [True] and filters
    nothing.  The [Float] columns [from_km] and [to_km] are read as the
    rationals they denote. *)
Definition get_top_road_segments_accidents_per_km (store : Store.db)
    (resolution : value) (location_info : gmap string value)
    (start_time end_time : option date) (limit : Z) : outcome result :=
  if ne_str resolution inter_city_road then Return EmptyDict
  else
    let query := get_query (Store.accident_marker_view store) start_time end_time in
    road1 ← match location_info !! "road1" with
            | Some v => Return v
            | None => Raise (raised KeyError)
            end;
    on_road ← road1_is road1;
    let joined :=
      flat_map (fun a =>
        flat_map (fun s =>
          if sql_eq (Store.road1 a) (Store.road s)
             && sql_eq (Store.road_segment_number a) (Store.segment s)
             && on_road (Store.road1 a)
          then [(a, s)] else [])
          (Store.road_segments store)) query in
    projected ← mapM project (group_by joined);
    rows ← limit_ limit (order_by_desc projected);
    mret (Records rows).



End TopSegments.

(** ** Request context and orchestration *)

Module Request.

(** The lookback as it reaches [get_request_params]: the parameter is
    annotated [int], and the call to [int()] under [except ValueError]
    admits the text of a request argument as well. *)
Inductive years_arg :=
  | YearsInt (z : Z)
  | YearsStr (s : string).

(** The answer of [extract_news_flash_location]:
    [{"name": "location", "data": data, "gps": gps}]. *)
Record location := {
  data : gmap string value;
  loc_gps : gmap string value
}.

(** What the module is given: the store, and the collaborators that are
    outside the properties verified here.
    - [resolution_dict] is [anyway.parsers.resolution_dict];
    - [int_of_str s] is the builtin [int(s)] on a [str], [None] standing
      for [ValueError];
    - [get_news_flash_location_text] computes the display text from a
      second read of the news flash;
    - [get_infographics_data_from_cache] is the cache collaborator;
    - the two generators are those of the registry, statistic functions
      over the query layer;
    - [assemble] stands for the statements of [create_infographics_data]
      after its guard, which build the envelope and dump it to JSON. *)
Record Env := {
  store : Store.db;
  resolution_dict : gmap string (list string);
  int_of_str : string -> option Z;
  get_news_flash_location_text : Z -> outcome string;
  get_infographics_data_from_cache : Z -> years_arg -> outcome value;
  get_accident_count_by_severity :
    option RequestParams -> Widgets.WidgetId -> outcome Widgets.Widget;
  get_most_severe_accidents_table :
    option RequestParams -> Widgets.WidgetId -> outcome Widgets.Widget;
  assemble : RequestParams -> outcome value
}.

(** [getattr(news_flash_obj, field)] *)
Definition getattr (obj : Store.NewsFlash) (field : string) : outcome value :=
  if String.eqb field "id" then Return (VInt (Store.nf_id obj))
  else if String.eqb field "resolution" then
    Return (match Store.nf_resolution obj with Some s => VStr s | None => VNone end)
  else if String.eqb field "lon" then Return (Store.nf_lon obj)
  else if String.eqb field "lat" then Return (Store.nf_lat obj)
  else match Store.nf_columns obj !! field with
       | Some v => Return v
       | None => Raise (raised AttributeError)
       end.

(** [db.session.query(NewsFlash).filter(NewsFlash.id == i).first()] *)
Definition first_news_flash (table : list Store.NewsFlash) (i : Z)
    : option Store.NewsFlash :=
  List.find (fun row => Store.nf_id row =? i) table.

(** The loop [for field in resolution_dict[resolution]]. *)
Fixpoint fill_data (obj : Store.NewsFlash) (fields : list string)
    (data : gmap string value) : outcome (gmap string value) :=
  match fields with
  | [] => Return data
  | field :: rest =>
      curr_field ← getattr obj field;
      fill_data obj rest (if is_None curr_field then data else <[field := curr_field]> data)
  end.

Definition extract_news_flash_location (env : Env) (news_flash_id : Z)
    : outcome (option location) :=
  match first_news_flash (Store.news_flash (store env)) news_flash_id with
  | None => Return None
  | Some news_flash_obj =>
      let resolution :=
        match Store.nf_resolution news_flash_obj with
        | Some s => if truthy (VStr s) then Some s else None
        | None => None
        end in
      match resolution with
      | None => Return None
      | Some resolution =>
          match resolution_dict env !! resolution with
          | None => Return None
          | Some fields =>
              data ← fill_data news_flash_obj fields {["resolution" := VStr resolution]};
              lon ← getattr news_flash_obj "lon";
              let gps : gmap string value := <["lon" := lon]> ∅ in
              lat ← getattr news_flash_obj "lat";
              let gps := <["lat" := lat]> gps in
              Return (Some {| data := data; loc_gps := gps |})
          end
      end
  end.

(** [get_latest_accident_date]: [max(accident_timestamp)] over the
    whole of [AccidentMarkerView].  The function fills a [filters]
    dictionary that the query never receives. *)
Definition ts_max (a b : Store.Timestamp) : Store.Timestamp :=
  if Store.ts_leb a b then b else a.

Definition latest_step (acc : option Store.Timestamp) (row : Store.AccidentMarker)
    : option Store.Timestamp :=
  match acc with
  | None => Some (Store.accident_timestamp row)
  | Some m => Some (ts_max m (Store.accident_timestamp row))
  end.

Definition max_timestamp (table : list Store.AccidentMarker) : option Store.Timestamp :=
  fold_left latest_step table None.

Definition get_latest_accident_date (env : Env) : option Store.Timestamp :=
  max_timestamp (Store.accident_marker_view (store env)).

(** [last_accident_date.to_pydatetime().date()]; [None] has no such
    method. *)
Definition to_date (last_accident_date : option Store.Timestamp) : outcome date :=
  match last_accident_date with
  | Some t => Return (Store.ts_date t)
  | None => Raise (raised AttributeError)
  end.

(** [datetime.date(y, 1, 1)]: the year must lie in [MINYEAR, MAXYEAR]. *)
Definition january_first (y : Z) : outcome date :=
  if (1 <=? y) && (y <=? 9999) then Return (Date y 1 1)
  else Raise (raised ValueError).

(** [int(number_of_years_ago)] *)
Definition int_ (env : Env) (x : years_arg) : outcome Z :=
  match x with
  | YearsInt z => Return z
  | YearsStr s =>
      match int_of_str env s with
      | Some z => Return z
      | None => Raise (raised ValueError)
      end
  end.

Definition is_ValueError (e : exn) : bool :=
  match exn_cls e with ValueError => true | _ => false end.

(** The function after its [try] statement. *)
Definition get_request_params_validated (env : Env) (news_flash_id : Z)
    (number_of_years_ago : Z) : outcome (option RequestParams) :=
  if (number_of_years_ago <? 0) || (number_of_years_ago >? 100) then Return None
  else
    location_info ← extract_news_flash_location env news_flash_id;
    match location_info with
    | None => Return None
    | Some location_info =>
        location_text ← get_news_flash_location_text env news_flash_id;
        let gps := loc_gps location_info in
        let location_info := data location_info in
        resolution ← match location_info !! "resolution" with
                     | Some r => Return r
                     | None => Raise (raised KeyError)
                     end;
        let location_info := delete "resolution" location_info in
        if is_None resolution then Return None
        else if forallb is_None (List.map snd (map_to_list location_info)) then Return None
        else
          let last_accident_date := get_latest_accident_date env in
          end_time ← to_date last_accident_date;
          start_time ← january_first (year end_time + 1 - number_of_years_ago);
          Return (Some (RequestParams_init news_flash_id location_text location_info
                          resolution gps start_time end_time))
    end.

Definition get_request_params (env : Env) (news_flash_id : Z)
    (number_of_years_ago : years_arg) : outcome (option RequestParams) :=
  match int_ env number_of_years_ago with
  | Raise e => if is_ValueError e then Return None else Raise e
  | Return number_of_years_ago =>
      get_request_params_validated env news_flash_id number_of_years_ago
  end.

(** [request_params.<attribute>]: [None] has no attribute. *)
Definition attribute {A} (request_params : option RequestParams)
    (field : RequestParams -> A) : outcome A :=
  match request_params with
  | Some r => Return (field r)
  | None => Raise (raised AttributeError)
  end.

(** [create_infographics_data]: the five attributes are read before
    [request_params] is compared with [None]. *)
Definition create_infographics_data (env : Env) (news_flash_id : Z)
    (number_of_years_ago : years_arg) : outcome value :=
  request_params ← get_request_params env news_flash_id number_of_years_ago;
  location_info ← attribute request_params location_info;
  resolution ← attribute request_params resolution;
  start_time ← attribute request_params start_time;
  end_time ← attribute request_params end_time;
  location_text ← attribute request_params location_text;
  match request_params with
  | None => Return (VDict ∅)
  | Some request_params => assemble env request_params
  end.

Definition get_widgets_def (env : Env) : list Widgets.WidgetDef :=
  [ Widgets.WidgetDef_init Widgets.accident_count_by_severity
      (get_accident_count_by_severity env);
    Widgets.WidgetDef_init Widgets.most_severe_accidents_table
      (get_most_severe_accidents_table env) ].

(** The records written with [logging.error] by [get_infographics_data]:
    the first carries the event id, the lookback, [e.__cause__] and
    [e.__class__]. *)
Inductive log_record :=
  | ExceptionWhileRetrieving (news_flash_id : Z) (years_ago : years_arg)
      (cause : option string) (cls : exn_class)
  | NotFoundInCache (news_flash_id : Z) (years_ago : years_arg).

(** The log written when the guarded body raises [e]. *)
Definition failure_log (news_flash_id : Z) (years_ago : years_arg) (e : exn)
    : list log_record :=
  [ ExceptionWhileRetrieving news_flash_id years_ago (exn_cause e) (exn_cls e);
    NotFoundInCache news_flash_id years_ago ].

(** The bound method [res.append], looked up before its argument is
    evaluated: only a list has it. *)
Definition append_of (res : value) : outcome (value -> value) :=
  match res with
  | VList l => Return (fun x => VList (l ++ [x]))
  | _ => Raise (raised AttributeError)
  end.

(** The body of the [try] statement of [get_infographics_data]. *)
Definition cached_and_fresh (env : Env) (news_flash_id : Z) (years_ago : years_arg)
    : outcome value :=
  res ← get_infographics_data_from_cache env news_flash_id years_ago;
  request_params ← get_request_params env news_flash_id years_ago;
  append ← append_of res;
  widgets ← Widgets.generate_widgets request_params (get_widgets_def env) false;
  Return (append (VList widgets)).

(** [get_infographics_data]: its outcome and the error records it logs.
    [except Exception] handles every exception of the model. *)
Definition get_infographics_data (env : Env) (news_flash_id : Z) (years_ago : years_arg)
    : outcome value * list log_record :=
  let '(res, log) :=
    match cached_and_fresh env news_flash_id years_ago with
    | Return res => (res, [])
    | Raise e =>
        (VDict ∅,
         [ExceptionWhileRetrieving news_flash_id years_ago (exn_cause e) (exn_cls e)])
    end in
  let log := if truthy res then log else log ++ [NotFoundInCache news_flash_id years_ago] in
  (Return res, log).

End Request.

(** ** Concrete stores and inputs used in the examples *)

Module Demo.

Definition accident (d : date) (rd seg : Z) (nm : string) : Store.AccidentMarker :=
  {| Store.accident_timestamp := {| Store.ts_date := d; Store.ts_nanos := 0 |};
     Store.road1 := Some rd;
     Store.road_segment_number := Some seg;
     Store.road_segment_name := Some nm |}.

Definition segment (rd seg : Z) (from_km to_km : Q) : Store.RoadSegment :=
  {| Store.road := Some rd; Store.segment := Some seg;
     Store.from_km := from_km; Store.to_km := to_km |}.

(** Road 90 with three segments: two accidents on each of two segments
    of 2 km, one accident on a segment of 0.3 km. *)
Definition roads : Store.db :=
  {| Store.news_flash := [];
     Store.accident_marker_view :=
       [ accident (Date 2019 3 1) 90 1 "A"; accident (Date 2019 4 1) 90 2 "B";
         accident (Date 2019 5 1) 90 1 "A"; accident (Date 2019 6 1) 90 2 "B";
         accident (Date 2019 7 1) 90 3 "C"; accident (Date 2019 8 1) 4 1 "Z" ];
     Store.road_segments :=
       [ segment 90 1 0 2; segment 90 2 5 7; segment 90 3 7 7.3; segment 4 1 0 1 ] |}.

Definition on_road_90 : gmap string value := {[ "road1" := VInt 90 ]}.

(** A reading of plain decimal literals, standing for [int()] on the
    strings of the examples: an optional minus sign, then digits. *)
Definition all_digits (s : string) : bool :=
  forallb AgeGroup.is_digit (list_ascii_of_string s).

Definition parse_decimal (s : string) : option Z :=
  match s with
  | EmptyString => None
  | String "-" rest =>
      if all_digits rest && negb (String.eqb rest "")
      then Some (- AgeGroup.int_of_digits 0 rest) else None
  | _ => if all_digits s then Some (AgeGroup.int_of_digits 0 s) else None
  end.

Definition flash : Store.NewsFlash :=
  {| Store.nf_id := 1;
     Store.nf_resolution := Some TopSegments.inter_city_road;
     Store.nf_lon := VFloat 35.5;
     Store.nf_lat := VFloat 32.25;
     Store.nf_columns :=
       {[ "road1" := VInt 90; "road_segment_name" := VStr "A"; "yishuv_name" := VNone ]} |}.

(** The store of the examples: one news flash on road 90, and accidents
    of which the latest happened on 2020-06-15. *)
Definition world : Store.db :=
  {| Store.news_flash := [flash];
     Store.accident_marker_view :=
       [ accident (Date 2019 3 1) 90 1 "A";
         {| Store.accident_timestamp :=
              {| Store.ts_date := Date 2020 6 15; Store.ts_nanos := 45000000000000 |};
            Store.road1 := Some 4;
            Store.road_segment_number := Some 1;
            Store.road_segment_name := Some "Z" |};
         accident (Date 2020 6 15) 90 2 "B";
         accident (Date 2018 12 31) 90 3 "C" ];
     Store.road_segments := Store.road_segments roads |}.

Definition widget : Widgets.Widget :=
  {| Widgets.request_params := None;
     Widgets.name := "street_view";
     Widgets.rank := 4;
     Widgets.items := VDict {[ "longitude" := VFloat 35.5; "latitude" := VFloat 32.25 ]};
     Widgets.text := VNone;
     Widgets.meta := None |}.

(** The cache knows event 1 and fails on every other event. *)
Definition env : Request.Env :=
  {| Request.store := world;
     Request.resolution_dict :=
       {[ TopSegments.inter_city_road := ["road1"; "road_segment_name"; "yishuv_name"] ]};
     Request.int_of_str := parse_decimal;
     Request.get_news_flash_location_text := fun _ => Return "road 90, segment A";
     Request.get_infographics_data_from_cache := fun i _ =>
       if i =? 1 then Return (VList [Widgets.serialize widget])
       else Raise (Exn DatabaseError (Some "connection refused"));
     Request.get_accident_count_by_severity := fun _ _ => Return widget;
     Request.get_most_severe_accidents_table := fun _ _ => Return widget;
     Request.assemble := fun _ => Return (VStr "{}") |}.

(** The same collaborators over a store without any accident. *)
Definition env_without_accidents : Request.Env :=
  {| Request.store :=
       {| Store.news_flash := [flash];
          Store.accident_marker_view := [];
          Store.road_segments := [] |};
     Request.resolution_dict := Request.resolution_dict env;
     Request.int_of_str := parse_decimal;
     Request.get_news_flash_location_text := Request.get_news_flash_location_text env;
     Request.get_infographics_data_from_cache :=
       Request.get_infographics_data_from_cache env;
     Request.get_accident_count_by_severity := Request.get_accident_count_by_severity env;
     Request.get_most_severe_accidents_table :=
       Request.get_most_severe_accidents_table env;
     Request.assemble := Request.assemble env |}.

End Demo.

(** ** Further statistic functions *)

(** A Python [dict] in insertion order, for the functions whose result
    depends on the order in which the keys were first written. *)
Module Dict.

Section Ops.
Context {A : Type}.

Fixpoint lookup (k : string) (d : list (string * A)) : option A :=
  match d with
  | [] => None
  | (k', v) :: rest => if String.eqb k' k then Some v else lookup k rest
  end.

(** [d[k] = v]: an existing key keeps its place. *)
Fixpoint setitem (k : string) (v : A) (d : list (string * A)) : list (string * A) :=
  match d with
  | [] => [(k, v)]
  | (k', v') :: rest =>
      if String.eqb k' k then (k', v) :: rest else (k', v') :: setitem k v rest
  end.

End Ops.

Definition dict_keys {A} (d : list (string * A)) : list string := List.map fst d.

End Dict.

Module InjuredFilters.

(** The keys that [get_injured_filters] prefixes (the source lists
    ["district_hebrew"] twice). *)
Definition renamed : list string :=
  ["region_hebrew"; "district_hebrew"; "district_hebrew"; "yishuv_name"].

Definition is_renamed (curr_filter : string) : bool :=
  existsb (String.eqb curr_filter) renamed.

Definition injury_severities : value := VList [VInt 1; VInt 2; VInt 3; VInt 4; VInt 5].

(** The key under which the result holds the value of an input key. *)
Definition new_name (curr_filter : string) : string :=
  if is_renamed curr_filter then "accident_" +:+ curr_filter else curr_filter.

Definition rename (kv : string * value) : string * value := (new_name (fst kv), snd kv).

(** One iteration of the loop over [location_info.items()]. *)
Definition filter_step (new_filters : list (string * value)) (kv : string * value)
    : list (string * value) :=
  let '(curr_filter, curr_values) := kv in
  if is_renamed curr_filter then
    let new_filter_name := "accident_" +:+ curr_filter in
    Dict.setitem new_filter_name curr_values new_filters
  else Dict.setitem curr_filter curr_values new_filters.

Definition get_injured_filters (location_info : list (string * value))
    : list (string * value) :=
  let new_filters := fold_left filter_step location_info [] in
  Dict.setitem "injury_severity" injury_severities new_filters.

End InjuredFilters.

Module Vehicles.

(** A record [{"involve_vehicle_type": ..., "count": ...}] of the count
    grouped by vehicle type; the type of the group of rows without a
    vehicle type is [None]. *)
Record item := { involve_vehicle_type : option Z; count : Z }.

(** The constants of [BE_CONST] and of [driver_type_hebrew_dict] that the
    two classifications read. *)
Record constants := {
  PROFESSIONAL_DRIVER_VEHICLE_TYPES : list Z;
  PRIVATE_DRIVER_VEHICLE_TYPES : list Z;
  LIGHT_ELECTRIC_VEHICLE_TYPES : list Z;
  OTHER_VEHICLES_TYPES : list Z;
  CAR_VEHICLE_TYPES : list Z;
  LARGE_VEHICLE_TYPES : list Z;
  MOTORCYCLE_VEHICLE_TYPES : list Z;
  BICYCLE_AND_SMALL_MOTOR_VEHICLE_TYPES : list Z;
  professional_driver : string;
  private_vehicle_driver : string;
  other_driver : string
}.

(** [vehicle_type in types] *)
Definition member (vehicle_type : option Z) (types : list Z) : bool :=
  match vehicle_type with
  | Some t => existsb (Z.eqb t) types
  | None => false
  end.

(** A record [{"driver_type": ..., "count": ...}]. *)
Record driver_count := { driver_type : string; driver_total : Z }.

Section WithConstants.
Variable BE_CONST : constants.

(** The key under which [count_accidents_by_driver_type] counts a
    vehicle type, if any: the chain of [if]/[elif] without [else]. *)
Definition driver_key (vehicle_type : option Z) : option string :=
  if member vehicle_type (PROFESSIONAL_DRIVER_VEHICLE_TYPES BE_CONST)
  then Some (professional_driver BE_CONST)
  else if member vehicle_type (PRIVATE_DRIVER_VEHICLE_TYPES BE_CONST)
  then Some (private_vehicle_driver BE_CONST)
  else if member vehicle_type (LIGHT_ELECTRIC_VEHICLE_TYPES BE_CONST)
          || member vehicle_type (OTHER_VEHICLES_TYPES BE_CONST)
  then Some (other_driver BE_CONST)
  else None.

Definition driver_step (driver_types : AgeGroup.defaultdict) (it : item)
    : AgeGroup.defaultdict :=
  match driver_key (involve_vehicle_type it) with
  | Some k => AgeGroup.dd_iadd k (count it) driver_types
  | None => driver_types
  end.

Definition count_accidents_by_driver_type (data : list item) : list driver_count :=
  let driver_types := fold_left driver_step data [] in
  List.map (fun kv => {| driver_type := fst kv; driver_total := snd kv |}) driver_types.

(** The key of [percentage_accidents_by_car_type]: the chain ends with
    an [else]. *)
Definition car_key (vehicle_type : option Z) : string :=
  if member vehicle_type (CAR_VEHICLE_TYPES BE_CONST) then "רכב פרטי"
  else if member vehicle_type (LARGE_VEHICLE_TYPES BE_CONST) then "מסחרי/משאית"
  else if member vehicle_type (MOTORCYCLE_VEHICLE_TYPES BE_CONST) then "אופנוע"
  else if member vehicle_type (BICYCLE_AND_SMALL_MOTOR_VEHICLE_TYPES BE_CONST)
  then "אופניים/קורקינט"
  else "אחר".

(** The first loop: the running [total_count] and the sums per key
    (floats holding sums of integers). *)
Definition car_step (st : Z * AgeGroup.defaultdict) (it : item)
    : Z * AgeGroup.defaultdict :=
  let '(total_count, driver_types) := st in
  (total_count + count it,
   AgeGroup.dd_iadd (car_key (involve_vehicle_type it)) (count it) driver_types).

(** The sums per key alone. *)
Definition car_sums_step (d : AgeGroup.defaultdict) (it : item) : AgeGroup.defaultdict :=
  AgeGroup.dd_iadd (car_key (involve_vehicle_type it)) (count it) d.

Definition ZeroDivisionError : exn := raised (OtherError "ZeroDivisionError").

(** The second loop: [100 * v / total_count], a float division, read as
    a rational; dividing by zero raises. *)
Fixpoint percentages (total_count : Z) (driver_types : AgeGroup.defaultdict)
    : outcome (list (string * Q)) :=
  match driver_types with
  | [] => Return []
  | (k, v) :: rest =>
      if total_count =? 0 then Raise ZeroDivisionError
      else
        output ← percentages total_count rest;
        Return ((k, (inject_Z (100 * v) / inject_Z total_count)%Q) :: output)
  end.

Definition percentage_accidents_by_car_type (involved_by_vehicle_type_data : list item)
    : outcome (list (string * Q)) :=
  let '(total_count, driver_types) :=
    fold_left car_step involved_by_vehicle_type_data (0, []) in
  percentages total_count driver_types.

(** A record of [stats_accidents_by_car_type_with_national_data]. *)
Record car_stat := {
  car_type : string;
  percentage_segment : Q;
  percentage_country : Q
}.

(** [data_by_segment[k]] on a [defaultdict(float)]. *)
Definition percentage_of (k : string) (d : list (string * Q)) : Q :=
  default 0%Q (Dict.lookup k d).

Section WithNationalData.

(** [percentage_accidents_by_car_type_national_data_cache]: the
    percentages over the whole country for the time window. *)
Variable national_data_cache : date -> date -> outcome (list (string * Q)).

Definition stats_accidents_by_car_type_with_national_data
    (involved_by_vehicle_type_data : list item) (start_time end_time : date)
    : outcome (list car_stat) :=
  data_by_segment ← percentage_accidents_by_car_type involved_by_vehicle_type_data;
  national_data ← national_data_cache start_time end_time;
  Return (List.map (fun kv =>
            {| car_type := fst kv;
               percentage_segment := percentage_of (fst kv) data_by_segment;
               percentage_country := percentage_of (fst kv) national_data |})
          national_data).

End WithNationalData.

End WithConstants.

Definition item_total (l : list item) : Z := fold_right (fun it acc => count it + acc) 0 l.

(** The records that [count_accidents_by_driver_type] counts. *)
Definition counted_drivers (BE_CONST : constants) (data : list item) : list item :=
  List.filter (fun it => match driver_key BE_CONST (involve_vehicle_type it) with
                         | Some _ => true
                         | None => false
                         end) data.

Definition car_labels : list string :=
  ["רכב פרטי"; "מסחרי/משאית"; "אופנוע"; "אופניים/קורקינט"; "אחר"].

Definition driver_count_total (l : list driver_count) : Z :=
  fold_right (fun it acc => driver_total it + acc) 0 l.

End Vehicles.

Module HeadOn.

(** The entries of [head_on_collisions_comparison_dict] that the module
    reads. *)
Record dictionary := {
  others : string;
  head_to_head_collision : string;
  head_to_head : string
}.

(** A record [{"desc": ..., "count": ...}]. *)
Record desc_count := { desc : string; desc_total : Z }.

Definition desc_count_total (l : list desc_count) : Z :=
  fold_right (fun it acc => desc_total it + acc) 0 l.

(** The accident type that [get_head_to_head_stat] singles out. *)
Definition head_on : string := "התנגשות חזית בחזית".

Section WithDictionary.
Variable head_on_collisions_comparison_dict : dictionary.

(** One iteration of the loop of [sum_road_accidents_by_specific_type]. *)
Definition sum_step (field_name : string) (dict_merge : AgeGroup.defaultdict)
    (accident_data : AccidentType.item) : AgeGroup.defaultdict :=
  if String.eqb (AccidentType.accident_type accident_data) field_name
  then AgeGroup.dd_iadd field_name (AccidentType.count accident_data) dict_merge
  else AgeGroup.dd_iadd (others head_on_collisions_comparison_dict)
         (AccidentType.count accident_data) dict_merge.

Definition sum_road_accidents_by_specific_type (road_data : list AccidentType.item)
    (field_name : string) : AgeGroup.defaultdict :=
  let dict_merge : AgeGroup.defaultdict := [] in
  let dict_merge := AgeGroup.dd_setitem field_name 0 dict_merge in
  let dict_merge :=
    AgeGroup.dd_setitem (others head_on_collisions_comparison_dict) 0 dict_merge in
  fold_left (sum_step field_name) road_data dict_merge.

Definition convert_roads_fatal_accidents_to_frontend_view (data_dict : AgeGroup.defaultdict)
    : list desc_count :=
  List.map (fun kv =>
    if String.eqb (fst kv) (head_to_head_collision head_on_collisions_comparison_dict)
    then {| desc := head_to_head head_on_collisions_comparison_dict; desc_total := snd kv |}
    else {| desc := fst kv; desc_total := snd kv |}) data_dict.

(** The answer of [get_head_to_head_stat]. *)
Record head_to_head_stat := {
  specific_road_segment_fatal_accidents : list desc_count;
  all_roads_fatal_accidents : list desc_count
}.

Section WithQueryLayer.

(** [get_accidents_stats] over the fatal accidents outside towns and
    junctions, grouped by accident type: for the whole country ([None])
    or for the road and segment name given. *)
Variable fatal_accidents_by_type :
  option (value * value) -> date -> date -> outcome (list AccidentType.item).

(** [news_flash_obj.<field>] where [news_flash_obj] may be [None]. *)
Definition obj_attribute (news_flash_obj : option Store.NewsFlash) (field : string)
    : outcome value :=
  match news_flash_obj with
  | Some obj => Request.getattr obj field
  | None => Raise (raised AttributeError)
  end.

Definition get_head_to_head_stat (table : list Store.NewsFlash) (news_flash_id : Z)
    (start_time end_time : date) : outcome head_to_head_stat :=
  let news_flash_obj := Request.first_news_flash table news_flash_id in
  all_roads_data ← fatal_accidents_by_type None start_time end_time;
  road1 ← obj_attribute news_flash_obj "road1";
  road_data ←
    (if truthy road1 then
       road_segment_name ← obj_attribute news_flash_obj "road_segment_name";
       if truthy road_segment_name
       then fatal_accidents_by_type (Some (road1, road_segment_name)) start_time end_time
       else Return []
     else Return []);
  let road_data_dict := sum_road_accidents_by_specific_type road_data head_on in
  let all_roads_data_dict := sum_road_accidents_by_specific_type all_roads_data head_on in
  Return {| specific_road_segment_fatal_accidents :=
              convert_roads_fatal_accidents_to_frontend_view road_data_dict;
            all_roads_fatal_accidents :=
              convert_roads_fatal_accidents_to_frontend_view all_roads_data_dict |}.

End WithQueryLayer.

End WithDictionary.

End HeadOn.

(** ** Further definitions on the age groups *)

(** The labels of the result other than "65+". *)
Definition plain_keys : list string := ["00-14"; "15-24"; "25-64"; "unknown"].

(** A record whose age-range string is followed by more text. *)
Definition with_suffix (t : string) (it : AgeGroup.item) : AgeGroup.item :=
  {| AgeGroup.age_group := AgeGroup.age_group it +:+ t;
     AgeGroup.count := AgeGroup.count it |}.

(** ** More concrete inputs for the examples *)

Module Demo2.

Definition failing : Widgets.WidgetDef :=
  {| Widgets.widget_id := Widgets.vision_zero;
     Widgets.generate_items := fun _ _ => Raise (raised TypeError);
     Widgets.is_included_in_response := Some (fun _ => true);
     Widgets.is_included_in_cache := true |}.

Definition shown : Widgets.WidgetDef :=
  {| Widgets.widget_id := Widgets.street_view;
     Widgets.generate_items := fun _ _ => Return Demo.widget;
     Widgets.is_included_in_response := Some (fun _ => true);
     Widgets.is_included_in_cache := true |}.

Definition blank_widget : Widgets.Widget :=
  {| Widgets.request_params := None;
     Widgets.name := "vision_zero";
     Widgets.rank := 15;
     Widgets.items := VList [VStr "vision_zero_2_plus_1"];
     Widgets.text := VStr "";
     Widgets.meta := Some ∅ |}.

Definition ages : list AgeGroup.item :=
  [ {| AgeGroup.age_group := "05-09"; AgeGroup.count := 10 |};
    {| AgeGroup.age_group := "85+"; AgeGroup.count := 2 |} ].

(** The location of the news flash of the examples. *)
Definition location1 : Request.location :=
  {| Request.data :=
       {[ "resolution" := VStr TopSegments.inter_city_road;
          "road1" := VInt 90; "road_segment_name" := VStr "A" ]};
     Request.loc_gps := {[ "lon" := VFloat 35.5; "lat" := VFloat 32.25 ]} |}.

(** A news flash whose location fields are all null. *)
Definition flash_without_location : Store.NewsFlash :=
  {| Store.nf_id := 7;
     Store.nf_resolution := Some TopSegments.inter_city_road;
     Store.nf_lon := VNone;
     Store.nf_lat := VNone;
     Store.nf_columns :=
       {[ "road1" := VNone; "road_segment_name" := VNone; "yishuv_name" := VNone ]} |}.

Definition env_without_location : Request.Env :=
  {| Request.store :=
       {| Store.news_flash := [flash_without_location];
          Store.accident_marker_view := Store.accident_marker_view Demo.world;
          Store.road_segments := [] |};
     Request.resolution_dict := Request.resolution_dict Demo.env;
     Request.int_of_str := Demo.parse_decimal;
     Request.get_news_flash_location_text :=
       Request.get_news_flash_location_text Demo.env;
     Request.get_infographics_data_from_cache :=
       Request.get_infographics_data_from_cache Demo.env;
     Request.get_accident_count_by_severity :=
       Request.get_accident_count_by_severity Demo.env;
     Request.get_most_severe_accidents_table :=
       Request.get_most_severe_accidents_table Demo.env;
     Request.assemble := Request.assemble Demo.env |}.

Definition filters : list (string * value) :=
  [("yishuv_name", VStr "town"); ("road1", VInt 90)].

Definition comparison : HeadOn.dictionary :=
  {| HeadOn.others := "others";
     HeadOn.head_to_head_collision := HeadOn.head_on;
     HeadOn.head_to_head := "head on" |}.

Definition fatal (segment : option (value * value)) (start_time end_time : date)
    : outcome (list AccidentType.item) :=
  match segment with
  | None => Return [ {| AccidentType.accident_type := HeadOn.head_on;
                        AccidentType.count := 12 |};
                     {| AccidentType.accident_type := "rollover";
                        AccidentType.count := 30 |} ]
  | Some _ => Return [ {| AccidentType.accident_type := HeadOn.head_on;
                          AccidentType.count := 2 |} ]
  end.

End Demo2.

(** * Properties *)

(** ** Outcomes *)

Lemma bind_Return {A B} (f : A -> outcome B) (a : A) : Return a ≫= f = f a.
Proof. reflexivity. Qed.

Lemma bind_Raise {A B} (f : A -> outcome B) (e : exn) : Raise e ≫= f = Raise e.
Proof. reflexivity. Qed.

Lemma bind_Return_inv {A B} (f : A -> outcome B) (c : outcome A) (b : B) :
  c ≫= f = Return b -> exists a, c = Return a /\ f a = Return b.
Proof. destruct c as [a|e]; [eauto | discriminate]. Qed.

(** ** Widget.serialize *)

Section Serialize.
Import Widgets.

(** C9.  For every widget, [serialize] yields an object with exactly the
    keys name, data and meta; [data] always holds the widget's items,
    holds the text exactly when the widget has one (and nothing else);
    [meta] always holds the rank of the widget under "rank" and otherwise
    the widget's own meta entries, none when the widget has no meta. *)
Theorem serialize_wire_shape (w : Widget) :
  exists output data output_meta : gmap string value,
    serialize w = VDict output
    /\ dom output = {[ "name"; "data"; "meta" ]}
    /\ output !! "name" = Some (VStr (name w))
    /\ output !! "data" = Some (VDict data)
    /\ output !! "meta" = Some (VDict output_meta)
    /\ data !! "items" = Some (items w)
    /\ data !! "text" = (if truthy (text w) then Some (text w) else None)
    /\ (text w = VNone -> dom data = {[ "items" ]})
    /\ dom data ⊆ {[ "items"; "text" ]}
    /\ output_meta !! "rank" = Some (VInt (rank w))
    /\ (forall k, k <> "rank" -> output_meta !! k = default ∅ (meta w) !! k)
    /\ (meta w = None -> dom output_meta = {[ "rank" ]}).
Proof.
  unfold serialize.
  eexists _, _, _. split; [reflexivity|].
  split. { rewrite !dom_insert_L, dom_empty_L. set_solver. }
  split; [done|]. split; [done|]. split; [done|].
  split. { destruct (truthy (text w)); by simplify_map_eq. }
  split. { destruct (truthy (text w)); by simplify_map_eq. }
  split. { intros ->. simpl. rewrite dom_insert_L, dom_empty_L. set_solver. }
  split. { destruct (truthy (text w)); rewrite !dom_insert_L, dom_empty_L; set_solver. }
  split. { by simplify_map_eq. }
  split.
  - intros k Hk. rewrite lookup_insert_ne by done.
    destruct (meta w) as [m|]; simpl; [|done].
    destruct (dict_truthy m) eqn:E; [done|].
    apply negb_false_iff, Nat.eqb_eq, map_size_empty_iff in E. by subst.
  - intros ->. rewrite dom_insert_L, dom_empty_L. set_solver.
Qed.

End Serialize.

(** ** generate_widgets *)

Section Generate.
Import Widgets.

Lemma generate_loop_spec rp (wds : list WidgetDef) (ws : list Widget) (res : list value) :
  Forall2 (fun wd w => generate_items wd rp (widget_id wd) = Return w) wds ws ->
  generate_loop rp wds res = Return (res ++ contributions wds ws).
Proof.
  intros H. revert res.
  induction H as [|wd w wds ws Hg _ IH]; intros res; simpl.
  - by rewrite app_nil_r.
  - rewrite Hg, bind_Return, IH. unfold contribution.
    destruct (is_included_in_response wd) as [p|]; [destruct (p w)|];
      by rewrite <- ?app_assoc, ?app_nil_r.
Qed.

(** When the generators of the selected descriptors answer, the output
    is made, in registry order, of the serialized widgets of the selected
    descriptors that carry an inclusion predicate accepting the widget. *)
Lemma generate_widgets_spec rp (widgets_def : list WidgetDef) (to_cache : bool)
    (ws : list Widget) :
  Forall2 (fun wd w => generate_items wd rp (widget_id wd) = Return w)
    (selected widgets_def to_cache) ws ->
  generate_widgets rp widgets_def to_cache
  = Return (contributions (selected widgets_def to_cache) ws).
Proof. intros H. unfold generate_widgets. by rewrite (generate_loop_spec _ _ ws). Qed.

Lemma contributions_without_predicate (wds : list WidgetDef) (ws : list Widget) :
  Forall (fun wd => is_included_in_response wd = None) wds ->
  contributions wds ws = [].
Proof.
  intros H. revert ws. induction H as [|wd wds Hwd _ IH]; intros [|w ws]; simpl; try done.
  unfold contribution. by rewrite Hwd, IH.
Qed.

(** C1.  When the descriptors whose cache eligibility is the requested
    one carry no inclusion predicate and their generators answer, the
    output of [generate_widgets] is empty: a descriptor without a
    predicate is never included, whereas the specification has it
    always included. *)
Theorem generate_widgets_drops_entries_without_predicate
    (rp : option RequestParams) (widgets_def : list WidgetDef) (to_cache : bool)
    (ws : list Widget) :
  Forall2 (fun wd w => generate_items wd rp (widget_id wd) = Return w)
    (selected widgets_def to_cache) ws ->
  Forall (fun wd => is_included_in_response wd = None) (selected widgets_def to_cache) ->
  generate_widgets rp widgets_def to_cache = Return [].
Proof.
  intros Hgen Hnone.
  rewrite (generate_widgets_spec rp widgets_def to_cache ws Hgen).
  by rewrite contributions_without_predicate.
Qed.

(** A registry of one entry built with the defaults of [WidgetDef]: the
    widget of its generator is left out. *)
Lemma generate_widgets_drops_entries_without_predicate_witness :
  generate_widgets None
    [WidgetDef_init street_view (fun _ _ => Return Demo.widget)] true = Return [].
Proof.
  apply (generate_widgets_drops_entries_without_predicate None
           [WidgetDef_init street_view (fun _ _ => Return Demo.widget)] true [Demo.widget]).
  - repeat constructor.
  - repeat constructor.
Defined.

(** With a predicate that accepts the widget, the same entry is
    serialized into the output. *)
Example generate_widgets_keeps_entry_with_predicate :
  generate_widgets None
    [ {| widget_id := street_view;
         generate_items := fun _ _ => Return Demo.widget;
         is_included_in_response := Some (fun _ => true);
         is_included_in_cache := true |} ] true
  = Return [serialize Demo.widget].
Proof. reflexivity. Qed.

End Generate.

(** ** Accident-type merge *)

Section Merge.
Import AccidentType.

Lemma total_app (l1 l2 : list item) : total (l1 ++ l2) = total l1 + total l2.
Proof. induction l1 as [|x l1 IH]; simpl; [done|]. rewrite IH. lia. Qed.

Lemma total_split (l : list item) :
  total (List.filter is_collision l)
  + total (List.filter (fun it => negb (is_collision it)) l) = total l.
Proof.
  induction l as [|x l IH]; simpl; [done|].
  destruct (is_collision x); simpl; lia.
Qed.

Lemma merge_fold (l : list item) (first : item) (others : list item) :
  fold_left merge_step l (first :: others)
  = {| accident_type := accident_type first;
       count := count first + total (List.filter is_collision l) |}
    :: others ++ List.filter (fun it => negb (is_collision it)) l.
Proof.
  revert first others.
  induction l as [|x l IH]; intros first others; simpl.
  - rewrite app_nil_r, Z.add_0_r. by destruct first.
  - unfold merge_step at 2. fold (is_collision x).
    destruct (is_collision x); simpl.
    + rewrite IH. simpl. f_equal. f_equal. lia.
    + change (first :: others ++ [x]) with (first :: (others ++ [x])).
      rewrite IH. by rewrite <- app_assoc.
Qed.

(** C5.  The merged list starts with the collision bucket, whose count
    is the sum of the counts of the categories containing the collision
    substring; the other categories follow unchanged and in order; and
    the count of the collision bucket plus the counts of the others is
    the sum of all the raw counts. *)
Theorem merge_conserves_total (all_accident_type_count : list item) :
  exists (c : Z) (others : list item),
    merge_accident_type_count all_accident_type_count
    = {| accident_type := collision; count := c |} :: others
    /\ c = total (List.filter is_collision all_accident_type_count)
    /\ others = List.filter (fun it => negb (is_collision it)) all_accident_type_count
    /\ c + total others = total all_accident_type_count
    /\ total (merge_accident_type_count all_accident_type_count)
       = total all_accident_type_count.
Proof.
  unfold merge_accident_type_count. rewrite merge_fold. simpl.
  eexists _, _. split; [reflexivity|].
  split; [done|]. split; [done|].
  pose proof (total_split all_accident_type_count). lia.
Qed.

(** The same through the query layer: when the grouped count answers,
    so does the function, with the merged list. *)
Lemma get_accident_count_by_accident_type_total
    (get_accidents_stats : gmap string value -> date -> date -> outcome (list item))
    (location_info : gmap string value) (start_time end_time : date) (raw : list item) :
  get_accidents_stats location_info start_time end_time = Return raw ->
  exists merged,
    get_accident_count_by_accident_type get_accidents_stats
      location_info start_time end_time = Return merged
    /\ total merged = total raw.
Proof.
  intros H. unfold get_accident_count_by_accident_type. rewrite H, bind_Return.
  eexists. split; [reflexivity|].
  unfold merge_accident_type_count. rewrite merge_fold. simpl.
  pose proof (total_split raw). lia.
Qed.

End Merge.

(** ** Age-bucket reclassification *)

Section AgeGroups.
Import AgeGroup.

Lemma dd_lookup_None (k : string) (d : defaultdict) :
  dd_lookup k d = None <-> ~ In k (keys d).
Proof.
  induction d as [|[k' v] d IH]; simpl; [tauto|].
  destruct (String.eqb_spec k' k) as [->|Hne]; [split; [discriminate|tauto]|].
  rewrite IH. tauto.
Qed.

Lemma dd_lookup_app (k : string) (d e : defaultdict) :
  dd_lookup k (d ++ e)
  = match dd_lookup k d with Some v => Some v | None => dd_lookup k e end.
Proof.
  induction d as [|[k' v] d IH]; simpl; [done|].
  by destruct (String.eqb k' k).
Qed.

Lemma dd_setitem_absent (k : string) (v : Z) (d : defaultdict) :
  dd_lookup k d = None -> dd_setitem k v d = d ++ [(k, v)].
Proof.
  induction d as [|[k' v'] d IH]; simpl; [done|].
  destruct (String.eqb k' k); [discriminate|]. intros H. by rewrite IH.
Qed.

Lemma dd_setitem_keys (k : string) (v : Z) (d : defaultdict) :
  dd_lookup k d <> None -> keys (dd_setitem k v d) = keys d.
Proof.
  induction d as [|[k' v'] d IH]; simpl; [done|].
  destruct (String.eqb k' k); simpl; [done|]. intros H. by rewrite IH.
Qed.

Lemma dd_lookup_setitem (k k' : string) (v : Z) (d : defaultdict) :
  dd_lookup k' (dd_setitem k v d)
  = if String.eqb k k' then Some v else dd_lookup k' d.
Proof.
  induction d as [|[k0 v0] d IH]; simpl.
  - destruct (String.eqb k k'); done.
  - destruct (String.eqb_spec k0 k) as [->|Hne]; simpl.
    + destruct (String.eqb k k'); done.
    + rewrite IH. destruct (String.eqb_spec k0 k') as [->|Hne'].
      * by rewrite (proj2 (String.eqb_neq k k')) by congruence.
      * done.
Qed.

Lemma sum_values_app (d e : defaultdict) :
  sum_values (d ++ e) = sum_values d + sum_values e.
Proof. induction d as [|kv d IH]; simpl; [done|]. rewrite IH. lia. Qed.

Lemma sum_values_setitem (k : string) (v : Z) (d : defaultdict) :
  sum_values (dd_setitem k v d) = sum_values d - dd_get k d + v.
Proof.
  unfold dd_get.
  induction d as [|[k0 v0] d IH]; simpl; [lia|].
  destruct (String.eqb k0 k); simpl; lia.
Qed.

Lemma sum_values_delitem (k : string) (d : defaultdict) :
  sum_values (dd_delitem k d) = sum_values d - dd_get k d.
Proof.
  unfold dd_get.
  induction d as [|[k0 v0] d IH]; simpl; [lia|].
  destruct (String.eqb k0 k); simpl; lia.
Qed.

Lemma dd_lookup_delitem (k k' : string) (d : defaultdict) :
  List.NoDup (keys d) ->
  dd_lookup k' (dd_delitem k d) = if String.eqb k k' then None else dd_lookup k' d.
Proof.
  induction d as [|[k0 v0] d IH]; simpl; intros Hnd.
  - by destruct (String.eqb k k').
  - apply List.NoDup_cons_iff in Hnd as [Hnotin Hnd].
    destruct (String.eqb_spec k0 k) as [->|Hne]; simpl.
    + destruct (String.eqb_spec k k') as [<-|Hne']; [|done].
      by apply dd_lookup_None.
    + rewrite IH by done.
      destruct (String.eqb_spec k0 k') as [->|Hne'].
      * by rewrite (proj2 (String.eqb_neq k k')) by congruence.
      * done.
Qed.

Lemma dd_delitem_keys (k : string) (d : defaultdict) (x : string) :
  In x (keys (dd_delitem k d)) -> In x (keys d).
Proof.
  induction d as [|[k0 v0] d IH]; simpl; [done|].
  destruct (String.eqb k0 k); simpl; tauto.
Qed.

Lemma dd_delitem_NoDup (k : string) (d : defaultdict) :
  List.NoDup (keys d) -> List.NoDup (keys (dd_delitem k d)).
Proof.
  induction d as [|[k0 v0] d IH]; simpl; [done|].
  intros [Hnotin Hnd]%List.NoDup_cons_iff.
  destruct (String.eqb k0 k); simpl; [done|].
  apply List.NoDup_cons_iff. split; [|by apply IH].
  intros Hin. apply Hnotin. by apply dd_delitem_keys in Hin.
Qed.

(** [d[k] += c] seen through lookups, keys and sums. *)
Lemma dd_get_iadd (k k' : string) (c : Z) (d : defaultdict) :
  dd_get k' (dd_iadd k c d) = if String.eqb k k' then dd_get k d + c else dd_get k' d.
Proof.
  unfold dd_iadd, dd_getitem, dd_get.
  destruct (dd_lookup k d) as [v|] eqn:E; simpl.
  - rewrite dd_lookup_setitem. by destruct (String.eqb k k').
  - rewrite dd_lookup_setitem, dd_lookup_app. simpl.
    destruct (String.eqb_spec k k') as [<-|Hne]; [done|].
    by destruct (dd_lookup k' d).
Qed.

Lemma keys_app (d e : defaultdict) : keys (d ++ e) = keys d ++ keys e.
Proof. apply List.map_app. Qed.

Lemma dd_iadd_keys (k : string) (c : Z) (d : defaultdict) :
  keys (dd_iadd k c d)
  = match dd_lookup k d with Some _ => keys d | None => keys d ++ [k] end.
Proof.
  unfold dd_iadd, dd_getitem.
  destruct (dd_lookup k d) as [v|] eqn:E; simpl.
  - apply dd_setitem_keys. congruence.
  - rewrite dd_setitem_keys, keys_app; [done|].
    rewrite dd_lookup_app, E. simpl. by rewrite String.eqb_refl.
Qed.

Lemma dd_iadd_NoDup (k : string) (c : Z) (d : defaultdict) :
  List.NoDup (keys d) -> List.NoDup (keys (dd_iadd k c d)).
Proof.
  intros Hnd. rewrite dd_iadd_keys.
  destruct (dd_lookup k d) eqn:E; [done|].
  apply dd_lookup_None in E.
  apply List.NoDup_app; [done| |].
  - apply List.NoDup_cons; [simpl; tauto | apply List.NoDup_nil].
  - intros x Hx [<-|[]]. by apply E.
Qed.

Lemma sum_values_iadd (k : string) (c : Z) (d : defaultdict) :
  sum_values (dd_iadd k c d) = sum_values d + c.
Proof.
  unfold dd_iadd, dd_getitem.
  destruct (dd_lookup k d) as [v|] eqn:E; simpl.
  - rewrite sum_values_setitem. unfold dd_get. rewrite E. simpl. lia.
  - rewrite sum_values_setitem, sum_values_app. unfold dd_get.
    rewrite dd_lookup_app, E. simpl. rewrite String.eqb_refl. simpl. lia.
Qed.

Lemma dd_setitem_keys_in (k : string) (v : Z) (d : defaultdict) (x : string) :
  In x (keys (dd_setitem k v d)) -> x = k \/ In x (keys d).
Proof.
  destruct (dd_lookup k d) eqn:E.
  - rewrite dd_setitem_keys by congruence. tauto.
  - rewrite dd_setitem_absent, keys_app by done.
    intros [H|[<-|[]]]%in_app_or; tauto.
Qed.

Lemma dd_setitem_NoDup (k : string) (v : Z) (d : defaultdict) :
  List.NoDup (keys d) -> List.NoDup (keys (dd_setitem k v d)).
Proof.
  intros Hnd. destruct (dd_lookup k d) eqn:E.
  - by rewrite dd_setitem_keys by congruence.
  - rewrite dd_setitem_absent, keys_app by done.
    apply dd_lookup_None in E.
    apply List.NoDup_app; [done| |].
    + apply List.NoDup_cons; [simpl; tauto | apply List.NoDup_nil].
    + intros x Hx [<-|[]]. by apply E.
Qed.

(** [d[k]] read, seen through lookups, keys and sums. *)
Lemma dd_getitem_fst (k : string) (d : defaultdict) : fst (dd_getitem k d) = dd_get k d.
Proof. unfold dd_getitem, dd_get. by destruct (dd_lookup k d). Qed.

Lemma dd_getitem_get (k k' : string) (d : defaultdict) :
  dd_get k' (snd (dd_getitem k d)) = dd_get k' d.
Proof.
  unfold dd_getitem, dd_get. destruct (dd_lookup k d) eqn:E; simpl; [done|].
  rewrite dd_lookup_app. destruct (dd_lookup k' d); simpl; [done|].
  by destruct (String.eqb k k').
Qed.

Lemma dd_getitem_keys_in (k : string) (d : defaultdict) (x : string) :
  In x (keys (snd (dd_getitem k d))) -> x = k \/ In x (keys d).
Proof.
  unfold dd_getitem. destruct (dd_lookup k d); simpl; [tauto|].
  rewrite keys_app. intros [H|[<-|[]]]%in_app_or; tauto.
Qed.

Lemma dd_getitem_NoDup (k : string) (d : defaultdict) :
  List.NoDup (keys d) -> List.NoDup (keys (snd (dd_getitem k d))).
Proof.
  intros Hnd. unfold dd_getitem. destruct (dd_lookup k d) eqn:E; simpl; [done|].
  rewrite keys_app. apply dd_lookup_None in E.
  apply List.NoDup_app; [done| |].
  - apply List.NoDup_cons; [simpl; tauto | apply List.NoDup_nil].
  - intros x Hx [<-|[]]. by apply E.
Qed.

Lemma dd_getitem_sum (k : string) (d : defaultdict) :
  sum_values (snd (dd_getitem k d)) = sum_values d.
Proof.
  unfold dd_getitem. destruct (dd_lookup k d); simpl; [done|].
  rewrite sum_values_app. simpl. lia.
Qed.

Lemma dd_lookup_In (k : string) (v : Z) (d : defaultdict) :
  dd_lookup k d = Some v -> In (k, v) d.
Proof.
  induction d as [|[k0 v0] d IH]; simpl; [discriminate|].
  destruct (String.eqb_spec k0 k) as [->|Hne]; [intros [= ->]; tauto | auto].
Qed.

Lemma count_of_to_item (k : string) (d : defaultdict) :
  count_of k (List.map to_item d) = dd_get k d.
Proof.
  unfold dd_get. induction d as [|[k0 v0] d IH]; simpl; [done|].
  by destruct (String.eqb k0 k).
Qed.

Lemma total_to_item (d : defaultdict) : total (List.map to_item d) = sum_values d.
Proof. induction d as [|kv d IH]; simpl; [done|]. by rewrite IH. Qed.

Lemma age_total_app (l1 l2 : list item) : total (l1 ++ l2) = total l1 + total l2.
Proof. induction l1 as [|x l1 IH]; simpl; [done|]. rewrite IH. lia. Qed.

(** The loop body in terms of [loop_key]. *)
Lemma age_step_loop_key (d : defaultdict) (it : item) :
  age_step d it
  = match loop_key (age_group it) with
    | Some k => dd_iadd k (count it) d
    | None => d
    end.
Proof.
  unfold age_step, loop_key.
  by destruct (parse_age_range (age_group it)) as [[lo hi]|].
Qed.

Lemma find_bucket_range_dict (min_age max_age : Z) :
  find_bucket range_dict min_age max_age
  = if inside 0 14 min_age max_age then Some "00-14"
    else if inside 15 24 min_age max_age then Some "15-24"
    else if inside 25 64 min_age max_age then Some "25-64"
    else if inside 65 200 min_age max_age then Some "65-200"
    else None.
Proof.
  unfold range_dict, find_bucket, inside.
  replace (format_02 0 +:+ "-" +:+ format_02 14) with "00-14" by (vm_compute; reflexivity).
  replace (format_02 15 +:+ "-" +:+ format_02 24) with "15-24" by (vm_compute; reflexivity).
  replace (format_02 25 +:+ "-" +:+ format_02 64) with "25-64" by (vm_compute; reflexivity).
  replace (format_02 65 +:+ "-" +:+ format_02 200) with "65-200" by (vm_compute; reflexivity).
  reflexivity.
Qed.

Lemma loop_key_in (s k : string) : loop_key s = Some k -> In k loop_keys.
Proof.
  unfold loop_key, loop_keys.
  destruct (parse_age_range s) as [[lo hi]|].
  - rewrite find_bucket_range_dict.
    repeat (match goal with |- context [if ?c then _ else _] => destruct c end);
      intros [= <-]; simpl; tauto.
  - intros [= <-]. simpl. tauto.
Qed.

Lemma spec_bucket_loop_key (s : string) : spec_bucket s = relabel <$> loop_key s.
Proof.
  unfold spec_bucket, loop_key.
  destruct (parse_age_range s) as [[lo hi]|]; [|done].
  rewrite find_bucket_range_dict.
  repeat (match goal with |- context [if ?c then _ else _] => destruct c end); done.
Qed.

(** The state of the dictionary after the loop. *)
Lemma fold_age_step_get (data : list item) (d : defaultdict) (k : string) :
  dd_get k (fold_left age_step data d) = dd_get k d + total (keyed k data).
Proof.
  revert d. induction data as [|it data IH]; intros d; simpl; [lia|].
  rewrite IH, age_step_loop_key. unfold keyed at 2. simpl.
  destruct (loop_key (age_group it)) as [k'|]; [|done].
  rewrite dd_get_iadd.
  destruct (String.eqb_spec k' k) as [->|Hne]; simpl; fold (keyed k data); lia.
Qed.

Lemma fold_age_step_NoDup (data : list item) (d : defaultdict) :
  List.NoDup (keys d) -> List.NoDup (keys (fold_left age_step data d)).
Proof.
  revert d. induction data as [|it data IH]; intros d Hnd; simpl; [done|].
  apply IH. rewrite age_step_loop_key.
  destruct (loop_key (age_group it)); [by apply dd_iadd_NoDup | done].
Qed.

Lemma fold_age_step_keys (data : list item) (d : defaultdict) (x : string) :
  In x (keys (fold_left age_step data d)) -> In x (keys d) \/ In x loop_keys.
Proof.
  revert d. induction data as [|it data IH]; intros d; simpl; [tauto|].
  intros [H|H]%IH; [|tauto].
  rewrite age_step_loop_key in H.
  destruct (loop_key (age_group it)) as [k|] eqn:E; [|tauto].
  rewrite dd_iadd_keys in H.
  destruct (dd_lookup k d); [tauto|].
  apply in_app_or in H as [H|[<-|[]]]; [tauto|].
  right. by apply loop_key_in in E.
Qed.

Lemma fold_age_step_sum (data : list item) (d : defaultdict) :
  sum_values (fold_left age_step data d) = sum_values d + total (kept data).
Proof.
  revert d. induction data as [|it data IH]; intros d; simpl; [lia|].
  rewrite IH, age_step_loop_key. unfold kept at 2. simpl.
  destruct (loop_key (age_group it)) as [k'|]; simpl; fold (kept data);
    rewrite ?sum_values_iadd; lia.
Qed.

(** The records the specification attributes to a bucket are those the
    loop accumulates under the corresponding key. *)
Lemma attributed_to_keyed (k : string) (data : list item) :
  In k loop_keys ->
  attributed_to (relabel k) data = keyed k data.
Proof.
  intros Hk. unfold attributed_to, keyed. apply List.filter_ext. intros it.
  rewrite spec_bucket_loop_key.
  destruct (loop_key (age_group it)) as [k'|] eqn:E; simpl; [|done].
  apply loop_key_in in E. unfold loop_keys in *. simpl in E, Hk.
  repeat (destruct E as [<-|E]; [|]); try contradiction;
    repeat (destruct Hk as [<-|Hk]; [|]); try contradiction; reflexivity.
Qed.

Lemma attributed_kept (data : list item) : attributed data = kept data.
Proof.
  unfold attributed, kept. apply List.filter_ext. intros it.
  rewrite spec_bucket_loop_key. by destruct (loop_key (age_group it)).
Qed.

Lemma keyed_outside (k : string) (data : list item) :
  ~ In k loop_keys -> keyed k data = [].
Proof.
  intros Hk. unfold keyed. induction data as [|it data IH]; simpl; [done|].
  destruct (loop_key (age_group it)) as [k'|] eqn:E; [|done].
  destruct (String.eqb_spec k' k) as [->|_]; [|done].
  by apply loop_key_in in E.
Qed.

Lemma filter_and_group_final_dict (data : list item) :
  filter_and_group_injured_count_per_age_group data = List.map to_item (final_dict data).
Proof.
  unfold filter_and_group_injured_count_per_age_group, final_dict.
  rewrite <- dd_getitem_fst.
  by destruct (dd_getitem "65-200" (fold_left age_step data [])).
Qed.

Lemma final_dict_NoDup (data : list item) : List.NoDup (keys (final_dict data)).
Proof.
  apply dd_delitem_NoDup, dd_setitem_NoDup, dd_getitem_NoDup, fold_age_step_NoDup.
  apply List.NoDup_nil.
Qed.

Lemma final_dict_get (data : list item) (k : string) :
  k <> "65-200" ->
  dd_get k (final_dict data)
  = if String.eqb "65+" k then total (keyed "65-200" data) else total (keyed k data).
Proof.
  intros Hk. unfold final_dict, dd_get at 1.
  rewrite dd_lookup_delitem
    by (apply dd_setitem_NoDup, dd_getitem_NoDup, fold_age_step_NoDup, List.NoDup_nil).
  rewrite (proj2 (String.eqb_neq "65-200" k)) by congruence.
  rewrite dd_lookup_setitem.
  destruct (String.eqb "65+" k); simpl.
  - rewrite fold_age_step_get. unfold dd_get. simpl. lia.
  - fold (dd_get k (snd (dd_getitem "65-200" (fold_left age_step data [])))).
    rewrite dd_getitem_get, fold_age_step_get. unfold dd_get. simpl. lia.
Qed.

Lemma final_dict_keys (data : list item) (x : string) :
  In x (keys (final_dict data)) -> In x buckets.
Proof.
  intros Hin.
  assert (x <> "65-200") as Hne.
  { intros ->. revert Hin. apply dd_lookup_None. unfold final_dict.
    rewrite dd_lookup_delitem
      by (apply dd_setitem_NoDup, dd_getitem_NoDup, fold_age_step_NoDup, List.NoDup_nil).
    done. }
  unfold final_dict in Hin.
  apply dd_delitem_keys, dd_setitem_keys_in in Hin as [->|Hin]; [simpl; tauto|].
  apply dd_getitem_keys_in in Hin as [->|Hin]; [done|].
  apply fold_age_step_keys in Hin as [[]|Hin].
  unfold loop_keys, buckets in *. simpl in *.
  repeat (destruct Hin as [<-|Hin]; [try tauto|]); try contradiction.
Qed.

Lemma final_dict_sum (data : list item) : sum_values (final_dict data) = total (kept data).
Proof.
  unfold final_dict.
  rewrite sum_values_delitem, sum_values_setitem, dd_getitem_sum, fold_age_step_sum.
  rewrite dd_getitem_get.
  unfold dd_get at 3. rewrite dd_lookup_setitem.
  replace (String.eqb "65+" "65-200") with false by reflexivity.
  fold (dd_get "65-200" (snd (dd_getitem "65-200" (fold_left age_step data [])))).
  rewrite dd_getitem_get, !fold_age_step_get.
  rewrite (keyed_outside "65+") by (simpl; intros H; repeat (destruct H as [H|H]; [discriminate|]); done).
  unfold dd_get. simpl. lia.
Qed.

Lemma total_all_kept (data : list item) :
  (forall it, In it data -> spec_bucket (age_group it) <> None) -> kept data = data.
Proof.
  intros H. unfold kept. induction data as [|it data IH]; simpl; [done|].
  pose proof (H it (or_introl eq_refl)) as Hit.
  rewrite spec_bucket_loop_key in Hit.
  destruct (loop_key (age_group it)); [|done].
  f_equal. apply IH. intros it' Hin. apply H. by right.
Qed.

(** C3 (amended).  The result lists each bucket at most once, under one
    of the labels 00-14, 15-24, 25-64, 65+ and unknown; the count
    reported for a bucket is the sum of the counts of the input records
    attributed to it, where a record is attributed to "unknown" when its
    string does not parse, to the fixed range containing its parsed range
    when there is one, and to no bucket otherwise; the counts of the
    result add up to the counts of the attributed records, hence to the
    counts of the input when every record is attributed. *)
Theorem age_groups_partition (data_of_ages : list item) :
  let result := filter_and_group_injured_count_per_age_group data_of_ages in
  List.NoDup (List.map age_group result)
  /\ (forall it, In it result -> In (age_group it) buckets)
  /\ (forall k, In k buckets -> count_of k result = total (attributed_to k data_of_ages))
  /\ total result = total (attributed data_of_ages)
  /\ ((forall it, In it data_of_ages -> spec_bucket (age_group it) <> None) ->
      total result = total data_of_ages).
Proof.
  simpl. rewrite filter_and_group_final_dict.
  split; [|split; [|split; [|split]]].
  - rewrite List.map_map. apply final_dict_NoDup.
  - intros it [kv [<- Hin]]%in_map_iff. apply (final_dict_keys data_of_ages).
    unfold keys. apply in_map_iff. eauto.
  - intros k Hk. rewrite count_of_to_item.
    unfold buckets in Hk. simpl in Hk.
    decompose [or] Hk; try contradiction; subst k;
      rewrite final_dict_get by discriminate; simpl.
    + by rewrite <- attributed_to_keyed by (simpl; tauto).
    + by rewrite <- attributed_to_keyed by (simpl; tauto).
    + by rewrite <- attributed_to_keyed by (simpl; tauto).
    + by rewrite <- attributed_to_keyed by (simpl; tauto).
    + by rewrite <- attributed_to_keyed by (simpl; tauto).
  - by rewrite total_to_item, final_dict_sum, attributed_kept.
  - intros H. by rewrite total_to_item, final_dict_sum, total_all_kept.
Qed.

(** C3, as stated, fails: the range 10-19 lies in no single bucket, the
    loop leaves its count out, and the counts of the result add up to 0
    instead of 7. *)
Lemma age_groups_total_not_conserved :
  total (filter_and_group_injured_count_per_age_group
           [{| age_group := "10-19"; count := 7 |}])
  <> total [{| age_group := "10-19"; count := 7 |}].
Proof. vm_compute. discriminate. Qed.

(** C10.  For every input, the empty one included, the result holds an
    entry labelled "65+"; its count is the sum of the counts of the
    records whose range fell within 65-200, hence 0 when there is none. *)
Theorem age_groups_always_list_65_plus (data_of_ages : list item) :
  In {| age_group := "65+"; count := total (attributed_to "65+" data_of_ages) |}
     (filter_and_group_injured_count_per_age_group data_of_ages)
  /\ ((forall it, In it data_of_ages -> spec_bucket (age_group it) <> Some "65+") ->
      In {| age_group := "65+"; count := 0 |}
         (filter_and_group_injured_count_per_age_group data_of_ages))
  /\ filter_and_group_injured_count_per_age_group [] = [{| age_group := "65+"; count := 0 |}].
Proof.
  assert (In {| age_group := "65+"; count := total (attributed_to "65+" data_of_ages) |}
            (filter_and_group_injured_count_per_age_group data_of_ages)) as Hin.
  { rewrite filter_and_group_final_dict.
    apply in_map_iff. exists ("65+", total (attributed_to "65+" data_of_ages)).
    split; [done|]. apply dd_lookup_In.
    pose proof (final_dict_get data_of_ages "65+" ltac:(discriminate)) as Hget.
    simpl in Hget.
    rewrite <- (attributed_to_keyed "65-200") in Hget by (simpl; tauto).
    change (relabel "65-200") with "65+" in Hget. rewrite <- Hget.
    unfold dd_get, final_dict.
    rewrite dd_lookup_delitem
      by (apply dd_setitem_NoDup, dd_getitem_NoDup, fold_age_step_NoDup, List.NoDup_nil).
    replace (String.eqb "65-200" "65+") with false by reflexivity.
    rewrite dd_lookup_setitem. by rewrite String.eqb_refl. }
  split; [done|]. split; [|reflexivity].
  intros Hnone.
  replace 0 with (total (attributed_to "65+" data_of_ages)); [done|].
  clear Hin. unfold attributed_to.
  induction data_of_ages as [|it data IH]; simpl; [done|].
  pose proof (Hnone it (or_introl eq_refl)) as Hit.
  destruct (spec_bucket (age_group it)) as [k|].
  - destruct (String.eqb_spec k "65+") as [->|_]; [done|].
    apply IH. intros it' Hin. apply Hnone. by right.
  - apply IH. intros it' Hin. apply Hnone. by right.
Qed.

End AgeGroups.

(** ** Top road segments by accidents per km *)

Section TopRoadSegments.
Import TopSegments.

Lemma ne_str_false (v : value) (s : string) : ne_str v s = false <-> v = VStr s.
Proof.
  destruct v; simpl; try (split; [discriminate | intros [=]]).
  rewrite negb_false_iff, String.eqb_eq. split; [by intros -> | by intros [= ->]].
Qed.








End TopRoadSegments.

(** ** Request context *)

Section RequestContext.
Import Request.

Ltac by_compare :=
  unfold Store.ts_leb, Store.ts_compare, Store.date_compare;
  repeat match goal with
         | |- context [?a ?= ?b] => destruct (Z.compare_spec a b)
         end;
  intros; try done; try lia.

Lemma ts_leb_refl (a : Store.Timestamp) : Store.ts_leb a a = true.
Proof. by_compare. Qed.

Lemma ts_leb_trans (a b c : Store.Timestamp) :
  Store.ts_leb a b = true -> Store.ts_leb b c = true -> Store.ts_leb a c = true.
Proof. by_compare. Qed.

Lemma ts_leb_total (a b : Store.Timestamp) :
  Store.ts_leb a b = false -> Store.ts_leb b a = true.
Proof. by_compare. Qed.

Lemma ts_max_ge_l (a b : Store.Timestamp) : Store.ts_leb a (ts_max a b) = true.
Proof. unfold ts_max. destruct (Store.ts_leb a b) eqn:E; [done | apply ts_leb_refl]. Qed.

Lemma ts_max_ge_r (a b : Store.Timestamp) : Store.ts_leb b (ts_max a b) = true.
Proof.
  unfold ts_max. destruct (Store.ts_leb a b) eqn:E; [apply ts_leb_refl|].
  by apply ts_leb_total.
Qed.

Lemma max_timestamp_from (table : list Store.AccidentMarker) (m : Store.Timestamp) :
  exists last,
    fold_left latest_step table (Some m) = Some last
    /\ Store.ts_leb m last = true
    /\ (last = m \/ In last (List.map Store.accident_timestamp table))
    /\ (forall row, In row table ->
          Store.ts_leb (Store.accident_timestamp row) last = true).
Proof.
  revert m. induction table as [|row table IH]; intros m; simpl.
  - exists m. split; [done|]. split; [apply ts_leb_refl|]. split; [tauto|]. tauto.
  - destruct (IH (ts_max m (Store.accident_timestamp row))) as (last & Hf & Hge & Hin & Hall).
    exists last. split; [done|]. split.
    { eapply ts_leb_trans; [apply ts_max_ge_l | done]. }
    split.
    { destruct Hin as [->|Hin]; [|tauto].
      unfold ts_max. destruct (Store.ts_leb m (Store.accident_timestamp row)); tauto. }
    intros row' [<-|Hrow]; [|by apply Hall].
    eapply ts_leb_trans; [apply ts_max_ge_r | done].
Qed.

(** The latest timestamp is one of the table and no row is later. *)
Lemma max_timestamp_spec (table : list Store.AccidentMarker) (last : Store.Timestamp) :
  max_timestamp table = Some last ->
  In last (List.map Store.accident_timestamp table)
  /\ (forall row, In row table ->
        Store.ts_leb (Store.accident_timestamp row) last = true).
Proof.
  unfold max_timestamp.
  destruct table as [|row table]; simpl; [discriminate|].
  destruct (max_timestamp_from table (Store.accident_timestamp row))
    as (last' & Hf & Hge & Hin & Hall).
  rewrite Hf. intros [= <-]. split; [destruct Hin as [->|Hin]; [by left | by right]|].
  intros row' [<-|Hrow]; [done | by apply Hall].
Qed.

Lemma max_timestamp_nonempty (table : list Store.AccidentMarker) :
  table <> [] -> exists last, max_timestamp table = Some last.
Proof.
  unfold max_timestamp.
  destruct table as [|row table]; [done|]. intros _. simpl.
  destruct (max_timestamp_from table (Store.accident_timestamp row)) as (last & Hf & _).
  eauto.
Qed.

(** A lookback of [0, 100], an event whose location resolves, an accident
    table that is not empty and a start year that [datetime.date]
    accepts: the context is built. *)
Lemma get_request_params_answers (env : Env) (news_flash_id : Z)
    (number_of_years_ago : years_arg) (n : Z) (loc : location) (text : string)
    (r : value) (last : Store.Timestamp) :
  int_ env number_of_years_ago = Return n ->
  0 <= n <= 100 ->
  extract_news_flash_location env news_flash_id = Return (Some loc) ->
  get_news_flash_location_text env news_flash_id = Return text ->
  data loc !! "resolution" = Some r ->
  is_None r = false ->
  forallb is_None (List.map snd (map_to_list (delete "resolution" (data loc)))) = false ->
  max_timestamp (Store.accident_marker_view (store env)) = Some last ->
  1 <= year (Store.ts_date last) + 1 - n <= 9999 ->
  get_request_params env news_flash_id number_of_years_ago
  = Return (Some (RequestParams_init news_flash_id text (delete "resolution" (data loc)) r
                    (loc_gps loc) (Date (year (Store.ts_date last) + 1 - n) 1 1)
                    (Store.ts_date last))).
Proof.
  intros Hint Hn Hloc Htext Hres Hr Hall Hmax Hyear.
  unfold get_request_params. rewrite Hint. unfold get_request_params_validated.
  rewrite (proj2 (Z.ltb_ge n 0)) by lia.
  rewrite Z.gtb_ltb, (proj2 (Z.ltb_ge 100 n)) by lia. simpl.
  rewrite Hloc, bind_Return, Htext, bind_Return, Hres, bind_Return, Hr, Hall.
  unfold get_latest_accident_date. rewrite Hmax. simpl. unfold january_first.
  rewrite (proj2 (Z.leb_le 1 _)), (proj2 (Z.leb_le _ 9999)) by lia. reflexivity.
Qed.

(** C4.  Whenever [get_request_params] builds a context, the lookback
    is an integer n of [0, 100], the end date is the date of the latest
    accident timestamp of the whole accident table (a timestamp of the
    table that no row exceeds, whatever the location of the event), and
    the start date is the first of January of the year
    end year + 1 - n. *)
Theorem request_window (env : Env) (news_flash_id : Z) (number_of_years_ago : years_arg)
    (request_params : RequestParams) :
  get_request_params env news_flash_id number_of_years_ago = Return (Some request_params) ->
  exists (n : Z) (last : Store.Timestamp),
    int_ env number_of_years_ago = Return n
    /\ 0 <= n <= 100
    /\ In last (List.map Store.accident_timestamp (Store.accident_marker_view (store env)))
    /\ (forall row, In row (Store.accident_marker_view (store env)) ->
          Store.ts_leb (Store.accident_timestamp row) last = true)
    /\ end_time request_params = Store.ts_date last
    /\ start_time request_params = Date (year (end_time request_params) + 1 - n) 1 1.
Proof.
  unfold get_request_params.
  destruct (int_ env number_of_years_ago) as [n|e] eqn:Hint;
    [|destruct (is_ValueError e); discriminate].
  unfold get_request_params_validated.
  destruct ((n <? 0) || (n >? 100)) eqn:Hrange; [discriminate|].
  apply orb_false_iff in Hrange as [Hlo Hhi].
  apply Z.ltb_ge in Hlo. rewrite Z.gtb_ltb in Hhi. apply Z.ltb_ge in Hhi.
  intros H. apply bind_Return_inv in H as ([loc|] & _ & H); [|discriminate].
  apply bind_Return_inv in H as (text & _ & H).
  apply bind_Return_inv in H as (res & _ & H).
  destruct (is_None res); [discriminate|].
  destruct (forallb is_None _); [discriminate|].
  apply bind_Return_inv in H as (end_d & Hend & H).
  apply bind_Return_inv in H as (start_d & Hstart & [= <-]).
  unfold to_date, get_latest_accident_date in Hend.
  destruct (max_timestamp _) as [last|] eqn:Hmax; [|discriminate].
  injection Hend as <-.
  apply max_timestamp_spec in Hmax as [Hin Hall].
  unfold january_first in Hstart.
  destruct ((1 <=? _) && _); [|discriminate]. injection Hstart as <-.
  exists n, last. simpl. repeat split; try done; lia.
Qed.

(** The example of the specification: lookback 3 and latest timestamp
    2020-06-15 give the window 2018-01-01 .. 2020-06-15. *)
Lemma request_window_witness :
  exists request_params,
    get_request_params Demo.env 1 (YearsInt 3) = Return (Some request_params)
    /\ end_time request_params = Date 2020 6 15
    /\ start_time request_params = Date 2018 1 1
    /\ exists (n : Z) (last : Store.Timestamp),
         int_ Demo.env (YearsInt 3) = Return n
         /\ 0 <= n <= 100
         /\ In last (List.map Store.accident_timestamp
                       (Store.accident_marker_view (store Demo.env)))
         /\ (forall row, In row (Store.accident_marker_view (store Demo.env)) ->
               Store.ts_leb (Store.accident_timestamp row) last = true)
         /\ end_time request_params = Store.ts_date last
         /\ start_time request_params = Date (year (end_time request_params) + 1 - n) 1 1.
Proof.
  eexists. split; [vm_compute; reflexivity|].
  split; [reflexivity|]. split; [reflexivity|].
  apply (request_window Demo.env 1 (YearsInt 3)). vm_compute. reflexivity.
Defined.



(** C2.  Whenever [get_request_params] answers [None],
    [create_infographics_data] raises [AttributeError]: it reads the
    attributes of the answer before it compares the answer with [None],
    so the empty envelope of its guard is never returned. *)
Theorem create_infographics_data_raises_when_not_found (env : Env) (news_flash_id : Z)
    (number_of_years_ago : years_arg) :
  get_request_params env news_flash_id number_of_years_ago = Return None ->
  create_infographics_data env news_flash_id number_of_years_ago
  = Raise (raised AttributeError).
Proof. intros H. unfold create_infographics_data. by rewrite H. Qed.

Lemma create_infographics_data_raises_when_not_found_witness :
  get_request_params Demo.env 1 (YearsInt 101) = Return None
  /\ create_infographics_data Demo.env 1 (YearsInt 101) = Raise (raised AttributeError).
Proof.
  split; [reflexivity|].
  apply create_infographics_data_raises_when_not_found. reflexivity.
Defined.

End RequestContext.

(** ** The cached read path *)

Section CachedRead.
Import Request.

Lemma get_infographics_data_handles (env : Env) (news_flash_id : Z)
    (years_ago : years_arg) (e : exn) :
  cached_and_fresh env news_flash_id years_ago = Raise e ->
  get_infographics_data env news_flash_id years_ago
  = (Return (VDict ∅), failure_log news_flash_id years_ago e).
Proof. intros H. unfold get_infographics_data. by rewrite H. Qed.

(** C8.  [get_infographics_data] always returns, never raises.  When the
    cache collaborator raises, when the request context of the fresh
    computation raises, or when the merge of the fresh widgets into the
    cached answer raises, it returns the empty dictionary, after logging
    a record that carries the event id, the lookback, the cause and the
    class of the exception. *)
Theorem get_infographics_data_degrades (env : Env) (news_flash_id : Z)
    (years_ago : years_arg) :
  (exists res, fst (get_infographics_data env news_flash_id years_ago) = Return res)
  /\ forall e,
       (get_infographics_data_from_cache env news_flash_id years_ago = Raise e
        \/ (exists res,
              get_infographics_data_from_cache env news_flash_id years_ago = Return res
              /\ get_request_params env news_flash_id years_ago = Raise e)
        \/ (exists res request_params,
              get_infographics_data_from_cache env news_flash_id years_ago = Return res
              /\ get_request_params env news_flash_id years_ago = Return request_params
              /\ (append ← append_of res;
                  widgets ← Widgets.generate_widgets request_params
                              (get_widgets_def env) false;
                  Return (append (VList widgets))) = Raise e)) ->
       get_infographics_data env news_flash_id years_ago
       = (Return (VDict ∅), failure_log news_flash_id years_ago e)
       /\ In (ExceptionWhileRetrieving news_flash_id years_ago (exn_cause e) (exn_cls e))
             (snd (get_infographics_data env news_flash_id years_ago)).
Proof.
  split.
  - unfold get_infographics_data.
    destruct (cached_and_fresh env news_flash_id years_ago); simpl; eauto.
  - intros e H.
    assert (cached_and_fresh env news_flash_id years_ago = Raise e) as Hbody.
    { unfold cached_and_fresh.
      destruct H as [H|[(res & Hc & Hr)|(res & rp & Hc & Hr & Hm)]].
      - by rewrite H.
      - by rewrite Hc, bind_Return, Hr.
      - by rewrite Hc, bind_Return, Hr, bind_Return. }
    rewrite (get_infographics_data_handles _ _ _ _ Hbody). split; [done|].
    simpl. tauto.
Qed.

(** A failing cache (event 2), a failing request context (no accident
    in the store) and a cached answer that is not a list. *)
Lemma get_infographics_data_degrades_witness :
  get_infographics_data Demo.env 2 (YearsInt 3)
  = (Return (VDict ∅),
     failure_log 2 (YearsInt 3) (Exn DatabaseError (Some "connection refused")))
  /\ get_infographics_data Demo.env_without_accidents 1 (YearsInt 3)
     = (Return (VDict ∅), failure_log 1 (YearsInt 3) (raised AttributeError)).
Proof.
  split.
  - refine (proj1 (proj2 (get_infographics_data_degrades Demo.env 2 (YearsInt 3))
                     (Exn DatabaseError (Some "connection refused")) _)).
    left. reflexivity.
  - refine (proj1 (proj2 (get_infographics_data_degrades
                            Demo.env_without_accidents 1 (YearsInt 3))
                     (raised AttributeError) _)).
    right. left. eexists. split; [reflexivity|]. vm_compute. reflexivity.
Defined.

End CachedRead.

(** * Further properties *)

(** ** Widget identifiers, serialization and generation *)

Section MoreWidgets.
Import Widgets.

(** X1.  The ranks of the widget identifiers are the integers 1 to 21,
    each used once, and no two identifiers share a name. *)
Theorem widget_ids_unique :
  (forall a b, get_rank a = get_rank b -> a = b)
  /\ (forall a, 1 <= get_rank a <= 21)
  /\ (forall a b, get_name a = get_name b -> a = b).
Proof.
  split; [|split].
  - intros a b; destruct a, b; simpl; intros H; try reflexivity; discriminate.
  - intros a; destruct a; simpl; lia.
  - intros a b; destruct a, b; simpl; intros H; try reflexivity; discriminate.
Qed.

Lemma generate_loop_Raise rp (pre : list WidgetDef) (wd : WidgetDef)
    (post : list WidgetDef) (ws : list Widget) (e : exn) (res : list value) :
  Forall2 (fun wd w => generate_items wd rp (widget_id wd) = Return w) pre ws ->
  generate_items wd rp (widget_id wd) = Raise e ->
  generate_loop rp (pre ++ wd :: post) res = Raise e.
Proof.
  intros Hpre He. revert res.
  induction Hpre as [|wd' w pre ws Hg _ IH]; intros res; simpl.
  - by rewrite He.
  - rewrite Hg, bind_Return. apply IH.
Qed.

(** X2.  When the generator of a selected descriptor raises, after the
    generators of the selected descriptors before it have answered,
    [generate_widgets] raises the same exception: the widgets built so
    far are not returned. *)
Theorem generate_widgets_propagates (rp : option RequestParams)
    (widgets_def : list WidgetDef) (to_cache : bool)
    (pre : list WidgetDef) (wd : WidgetDef) (post : list WidgetDef)
    (ws : list Widget) (e : exn) :
  selected widgets_def to_cache = pre ++ wd :: post ->
  Forall2 (fun wd w => generate_items wd rp (widget_id wd) = Return w) pre ws ->
  generate_items wd rp (widget_id wd) = Raise e ->
  generate_widgets rp widgets_def to_cache = Raise e.
Proof.
  intros Hsel Hpre He. unfold generate_widgets. fold (selected widgets_def to_cache).
  rewrite Hsel. by apply (generate_loop_Raise rp pre wd post ws).
Qed.

Lemma generate_loop_tail rp (wds : list WidgetDef) (res out : list value) :
  generate_loop rp wds res = Return out ->
  exists tail, out = res ++ tail
               /\ forall res', generate_loop rp wds res' = Return (res' ++ tail).
Proof.
  revert res out. induction wds as [|wd wds IH]; intros res out; simpl.
  - intros [= <-]. exists []. split; [by rewrite app_nil_r|].
    intros res'. by rewrite app_nil_r.
  - destruct (generate_items wd rp (widget_id wd)) as [w|e]; [|discriminate].
    rewrite bind_Return. intros H.
    destruct (is_included_in_response wd) as [p|]; [destruct (p w) eqn:Hp|].
    + apply IH in H as (tail & -> & Hall).
      exists (serialize w :: tail). split; [by rewrite <- app_assoc|].
      intros res'. rewrite bind_Return, Hp, Hall. by rewrite <- app_assoc.
    + apply IH in H as (tail & -> & Hall).
      exists tail. split; [done|]. intros res'. by rewrite bind_Return, Hp.
    + apply IH in H as (tail & -> & Hall).
      exists tail. split; [done|]. intros res'. by rewrite bind_Return.
Qed.

Lemma generate_loop_app rp (l1 l2 : list WidgetDef) (res : list value) :
  generate_loop rp (l1 ++ l2) res
  = generate_loop rp l1 res ≫= generate_loop rp l2.
Proof.
  revert res. induction l1 as [|wd l1 IH]; intros res; simpl; [done|].
  destruct (generate_items wd rp (widget_id wd)) as [w|e]; [|done].
  rewrite !bind_Return. apply IH.
Qed.

(** X3.  Generation distributes over the concatenation of registries:
    when two registries yield [a1] and [a2], their concatenation yields
    [a1 ++ a2]. *)
Theorem generate_widgets_app (rp : option RequestParams)
    (l1 l2 : list WidgetDef) (to_cache : bool) (a1 a2 : list value) :
  generate_widgets rp l1 to_cache = Return a1 ->
  generate_widgets rp l2 to_cache = Return a2 ->
  generate_widgets rp (l1 ++ l2) to_cache = Return (a1 ++ a2).
Proof.
  unfold generate_widgets. intros H1 H2.
  rewrite List.filter_app, generate_loop_app, H1, bind_Return.
  apply generate_loop_tail in H2 as (tail & -> & Hall). simpl. apply Hall.
Qed.

(** X4.  An empty text and an empty meta are treated as absent: the
    serialized widget is the one of the same widget without text and
    without meta. *)
Theorem serialize_empty_as_absent (w : Widget) :
  truthy (text w) = false ->
  meta w = None \/ meta w = Some ∅ ->
  serialize w
  = serialize {| request_params := request_params w; name := name w; rank := rank w;
                 items := items w; text := VNone; meta := None |}.
Proof.
  intros Ht Hm. unfold serialize. simpl. rewrite Ht.
  by destruct Hm as [->| ->].
Qed.

End MoreWidgets.

(** ** More on the accident-type merge *)

Section MoreMerge.
Import AccidentType.

Lemma filter_collision_none (l : list item) :
  List.filter is_collision (List.filter (fun it => negb (is_collision it)) l) = [].
Proof.
  induction l as [|x l IH]; simpl; [done|].
  destruct (is_collision x) eqn:E; simpl; [done|]. by rewrite E.
Qed.

Lemma filter_others_all (l : list item) :
  List.filter (fun it => negb (is_collision it))
    (List.filter (fun it => negb (is_collision it)) l)
  = List.filter (fun it => negb (is_collision it)) l.
Proof.
  induction l as [|x l IH]; simpl; [done|].
  destruct (is_collision x) eqn:E; simpl; [done|]. rewrite E. simpl. by rewrite IH.
Qed.

(** X5.  Merging is idempotent: merging an already merged list leaves
    it unchanged, the collision bucket included. *)
Theorem merge_idempotent (all_accident_type_count : list item) :
  merge_accident_type_count (merge_accident_type_count all_accident_type_count)
  = merge_accident_type_count all_accident_type_count.
Proof.
  unfold merge_accident_type_count at 2. rewrite merge_fold. simpl.
  unfold merge_accident_type_count. rewrite merge_fold. simpl.
  replace (is_collision
             {| accident_type := collision;
                count := 0 + total (List.filter is_collision all_accident_type_count) |})
    with true by reflexivity.
  simpl. rewrite filter_collision_none, filter_others_all, merge_fold. simpl.
  f_equal. f_equal. lia.
Qed.

End MoreMerge.

(** ** More on the age-bucket reclassification *)

Section MoreAgeGroups.
Import AgeGroup.

Lemma dd_delitem_app (k : string) (d e : defaultdict) :
  dd_lookup k d <> None -> dd_delitem k (d ++ e) = dd_delitem k d ++ e.
Proof.
  induction d as [|[k0 v0] d IH]; simpl; [done|].
  destruct (String.eqb k0 k); [done|]. intros H. by rewrite IH.
Qed.

Lemma dd_delitem_absent (k : string) (d : defaultdict) :
  dd_lookup k d = None -> dd_delitem k d = d.
Proof.
  induction d as [|[k0 v0] d IH]; simpl; [done|].
  destruct (String.eqb k0 k); [discriminate|]. intros H. by rewrite IH.
Qed.

Lemma dd_delitem_last (k : string) (v : Z) (d : defaultdict) :
  dd_lookup k d = None -> dd_delitem k (d ++ [(k, v)]) = d.
Proof.
  induction d as [|[k0 v0] d IH]; simpl.
  - by rewrite String.eqb_refl.
  - destruct (String.eqb k0 k); [discriminate|]. intros H. by rewrite IH.
Qed.

(** The dictionary listed at the end: the keys other than "65-200" in
    the order of their first use, then "65+". *)
Lemma final_dict_shape (data : list item) :
  exists rest,
    final_dict data = rest ++ [("65+", total (keyed "65-200" data))]
    /\ List.NoDup (keys rest)
    /\ (forall k, In k (keys rest) -> In k plain_keys).
Proof.
  set (d0 := fold_left age_step data []).
  assert (List.NoDup (keys d0)) as Hnd
    by (apply fold_age_step_NoDup, List.NoDup_nil).
  assert (forall x, In x (keys d0) -> In x loop_keys) as Hkeys.
  { intros x Hx. by apply fold_age_step_keys in Hx as [[]|Hx]. }
  assert (dd_lookup "65+" d0 = None) as H65.
  { apply dd_lookup_None. intros Hin. apply Hkeys in Hin. simpl in Hin.
    repeat (destruct Hin as [Hin|Hin]; [discriminate|]). done. }
  assert (dd_get "65-200" d0 = total (keyed "65-200" data)) as Hv.
  { unfold d0. rewrite fold_age_step_get. unfold dd_get. simpl. lia. }
  exists (dd_delitem "65-200" d0). unfold final_dict. fold d0. rewrite Hv.
  split; [|split].
  - unfold dd_getitem. destruct (dd_lookup "65-200" d0) as [v|] eqn:E; simpl.
    + rewrite dd_setitem_absent by done. apply dd_delitem_app. congruence.
    + rewrite dd_setitem_absent
        by (rewrite dd_lookup_app, H65; simpl; reflexivity).
      rewrite dd_delitem_app
        by (rewrite dd_lookup_app, E; simpl; discriminate).
      by rewrite dd_delitem_last, dd_delitem_absent.
  - by apply dd_delitem_NoDup.
  - intros k Hk.
    assert (k <> "65-200") as Hne.
    { intros ->. revert Hk. apply dd_lookup_None.
      rewrite dd_lookup_delitem by done. done. }
    apply dd_delitem_keys, Hkeys in Hk. unfold plain_keys. simpl in *.
    repeat (destruct Hk as [<-|Hk]; [try tauto|]); try contradiction.
Qed.


End MoreAgeGroups.

Section AgeGroupsAgain.
Import AgeGroup.

Lemma dd_setitem_last (k : string) (v v0 : Z) (d : defaultdict) :
  dd_lookup k d = None -> dd_setitem k v (d ++ [(k, v0)]) = d ++ [(k, v)].
Proof.
  induction d as [|[k0 v1] d IH]; simpl.
  - by rewrite String.eqb_refl.
  - destruct (String.eqb k0 k); [discriminate|]. intros H. by rewrite IH.
Qed.

Lemma dd_iadd_absent (k : string) (c : Z) (d : defaultdict) :
  dd_lookup k d = None -> dd_iadd k c d = d ++ [(k, c)].
Proof.
  intros H. unfold dd_iadd, dd_getitem. rewrite H. by rewrite dd_setitem_last.
Qed.

Lemma dd_delitem_mid (k : string) (v : Z) (d e : defaultdict) :
  dd_lookup k d = None -> dd_delitem k (d ++ (k, v) :: e) = d ++ e.
Proof.
  induction d as [|[k0 v0] d IH]; simpl.
  - by rewrite String.eqb_refl.
  - destruct (String.eqb k0 k); [discriminate|]. intros H. by rewrite IH.
Qed.

Lemma loop_key_plain (k : string) : In k plain_keys -> loop_key k = Some k.
Proof.
  unfold plain_keys. simpl.
  intros H. repeat (destruct H as [<-|H]; [vm_compute; reflexivity|]). done.
Qed.

(** Listing a dictionary of plain keys and running the loop over the
    list rebuilds the dictionary. *)
Lemma fold_age_step_plain (rest d0 : defaultdict) :
  List.NoDup (keys rest) ->
  (forall k, In k (keys rest) -> In k plain_keys) ->
  (forall k, In k (keys rest) -> ~ In k (keys d0)) ->
  fold_left age_step (List.map to_item rest) d0 = d0 ++ rest.
Proof.
  revert d0. induction rest as [|[k c] rest IH]; intros d0 Hnd Hplain Hfresh; simpl.
  - by rewrite app_nil_r.
  - apply List.NoDup_cons_iff in Hnd as [Hk Hnd]. simpl in Hk.
    rewrite age_step_loop_key. simpl.
    rewrite loop_key_plain by (apply Hplain; simpl; tauto).
    rewrite dd_iadd_absent by (apply dd_lookup_None, Hfresh; simpl; tauto).
    rewrite IH; [by rewrite <- app_assoc | done | |].
    + intros k' Hk'. apply Hplain. simpl. tauto.
    + intros k' Hk'. rewrite keys_app. intros [Hin|[<-|[]]]%in_app_or.
      * revert Hin. apply Hfresh. simpl. tauto.
      * done.
Qed.

(** X7.  The reclassification is idempotent: applied to its own result,
    it returns that result, in the same order. *)
Theorem age_groups_idempotent (data_of_ages : list item) :
  filter_and_group_injured_count_per_age_group
    (filter_and_group_injured_count_per_age_group data_of_ages)
  = filter_and_group_injured_count_per_age_group data_of_ages.
Proof.
  destruct (final_dict_shape data_of_ages) as (rest & Hshape & Hnd & Hkeys).
  rewrite (filter_and_group_final_dict data_of_ages), Hshape.
  set (v := total (keyed "65-200" data_of_ages)).
  assert (dd_lookup "65-200" rest = None) as H200.
  { apply dd_lookup_None. intros Hin. apply Hkeys in Hin. simpl in Hin.
    repeat (destruct Hin as [Hin|Hin]; [discriminate|]). done. }
  assert (dd_lookup "65+" rest = None) as H65.
  { apply dd_lookup_None. intros Hin. apply Hkeys in Hin. simpl in Hin.
    repeat (destruct Hin as [Hin|Hin]; [discriminate|]). done. }
  unfold filter_and_group_injured_count_per_age_group at 1.
  rewrite List.map_app, fold_left_app.
  rewrite (fold_age_step_plain rest []); [| exact Hnd | exact Hkeys | by intros k _ []].
  simpl fold_left. rewrite age_step_loop_key.
  replace (loop_key (age_group (to_item ("65+", v)))) with (Some "65-200")
    by (vm_compute; reflexivity).
  simpl count. rewrite dd_iadd_absent by done.
  unfold dd_getitem. rewrite dd_lookup_app, H200. simpl dd_lookup.
  cbv beta iota zeta.
  rewrite dd_setitem_absent
    by (rewrite dd_lookup_app, H65; simpl; reflexivity).
  rewrite <- app_assoc. simpl app. rewrite dd_delitem_mid by done.
  apply List.map_app.
Qed.

Lemma parse_age_range_suffix (s t : string) :
  parse_age_range s <> None -> parse_age_range (s +:+ t) = parse_age_range s.
Proof.
  unfold parse_age_range, match_range, match_plus.
  destruct s as [|a [|b [|c [|d [|e s]]]]]; simpl; try done.
  - destruct (is_digit a && is_digit b && Ascii.eqb c "+") eqn:E2; [|done].
    intros _.
    assert (Ascii.eqb c "-" = false) as Hc.
    { apply andb_prop in E2 as [_ Hc]. apply Ascii.eqb_eq in Hc. by subst c. }
    destruct t as [|x [|y t]]; simpl; try done;
      by rewrite Hc, !andb_false_r.
  - destruct (is_digit a && is_digit b && Ascii.eqb c "+") eqn:E2.
    + intros _.
      assert (Ascii.eqb c "-" = false) as Hc.
      { apply andb_prop in E2 as [_ Hc]. apply Ascii.eqb_eq in Hc. by subst c. }
      destruct t as [|x t]; simpl; try done; by rewrite Hc, !andb_false_r.
    + done.
Qed.

(** X8.  The patterns are matched at the start of the string only: text
    after a range that parses changes nothing to the result. *)
Theorem age_groups_ignore_suffix (t : string) (data_of_ages : list item) :
  Forall (fun it => parse_age_range (age_group it) <> None) data_of_ages ->
  filter_and_group_injured_count_per_age_group (List.map (with_suffix t) data_of_ages)
  = filter_and_group_injured_count_per_age_group data_of_ages.
Proof.
  intros H. unfold filter_and_group_injured_count_per_age_group.
  assert (forall d, fold_left age_step (List.map (with_suffix t) data_of_ages) d
                    = fold_left age_step data_of_ages d) as ->; [|done].
  induction H as [|it data Hit _ IH]; intros d; simpl; [done|].
  rewrite IH. f_equal. unfold age_step, with_suffix. simpl.
  by rewrite parse_age_range_suffix.
Qed.

End AgeGroupsAgain.

(** ** More on the top road segments *)

Section MoreTopSegments.
Import TopSegments.

(** X9.  On the inter-city road resolution, a [location_info] without
    the key "road1" makes the function raise [KeyError], whatever the
    store, the time window and the limit. *)
Theorem top_road_segments_missing_road1 (store : Store.db)
    (location_info : gmap string value) (start_time end_time : option date) (limit : Z) :
  location_info !! "road1" = None ->
  get_top_road_segments_accidents_per_km store (VStr inter_city_road) location_info
    start_time end_time limit = Raise (raised KeyError).
Proof.
  intros H. unfold get_top_road_segments_accidents_per_km.
  rewrite (proj2 (ne_str_false _ _) eq_refl), H. reflexivity.
Qed.

(** X10.  On the inter-city road resolution a negative limit never
    yields a result: the function raises. *)
Theorem top_road_segments_negative_limit (store : Store.db)
    (location_info : gmap string value) (start_time end_time : option date) (limit : Z) :
  limit < 0 ->
  exists e,
    get_top_road_segments_accidents_per_km store (VStr inter_city_road) location_info
      start_time end_time limit = Raise e.
Proof.
  intros Hneg. unfold get_top_road_segments_accidents_per_km.
  rewrite (proj2 (ne_str_false _ _) eq_refl).
  destruct (location_info !! "road1") as [v|]; [|by eexists].
  rewrite bind_Return.
  destruct (road1_is v) as [on_road|e]; [|by eexists].
  rewrite bind_Return.
  destruct (mapM project _) as [projected|e]; [|by eexists].
  rewrite bind_Return. unfold limit_.
  rewrite (proj2 (Z.ltb_lt limit 0)) by done. by eexists.
Qed.


End MoreTopSegments.

(** ** More on the request context *)

Section MoreRequest.
Import Request.

Lemma fill_data_spec (obj : Store.NewsFlash) (fields : list string)
    (d d' : gmap string value) :
  fill_data obj fields d = Return d' ->
  forall k v, d' !! k = Some v ->
    d !! k = Some v \/ (In k fields /\ getattr obj k = Return v /\ is_None v = false).
Proof.
  revert d. induction fields as [|f fields IH]; intros d; simpl.
  - intros [= <-]. tauto.
  - destruct (getattr obj f) as [curr|e] eqn:Hc; [|discriminate].
    rewrite bind_Return. intros H k v Hk.
    destruct (IH _ H k v Hk) as [Hd|(Hin & Hg & Hn)]; [|tauto].
    destruct (is_None curr) eqn:Hn; [tauto|].
    destruct (decide (f = k)) as [->|Hne].
    + rewrite lookup_insert_eq in Hd. injection Hd as ->. tauto.
    + rewrite lookup_insert_ne in Hd by done. tauto.
Qed.

Lemma fill_data_keeps (obj : Store.NewsFlash) (fields : list string)
    (d d' : gmap string value) (k : string) :
  fill_data obj fields d = Return d' -> is_Some (d !! k) -> is_Some (d' !! k).
Proof.
  revert d. induction fields as [|f fields IH]; intros d; simpl.
  - by intros [= <-].
  - destruct (getattr obj f) as [curr|e]; [|discriminate].
    rewrite bind_Return. intros H Hk. apply (IH _ H).
    destruct (is_None curr); [done|].
    destruct (decide (f = k)) as [->|Hne].
    + rewrite lookup_insert_eq. eauto.
    + by rewrite lookup_insert_ne.
Qed.

(** The shape of an answered location. *)
Lemma extract_news_flash_location_inv (env : Env) (news_flash_id : Z) (loc : location) :
  extract_news_flash_location env news_flash_id = Return (Some loc) ->
  exists obj s fields,
    first_news_flash (Store.news_flash (store env)) news_flash_id = Some obj
    /\ Store.nf_resolution obj = Some s
    /\ s <> ""
    /\ resolution_dict env !! s = Some fields
    /\ data loc !! "resolution" = Some (VStr s)
    /\ (forall k v, data loc !! k = Some v -> is_None v = false)
    /\ (forall k v, data loc !! k = Some v -> k <> "resolution" ->
          In k fields /\ getattr obj k = Return v)
    /\ dom (loc_gps loc) = {[ "lon"; "lat" ]}.
Proof.
  unfold extract_news_flash_location.
  destruct (first_news_flash _ _) as [obj|] eqn:Hobj; [|discriminate].
  destruct (Store.nf_resolution obj) as [s|] eqn:Hres; [|discriminate].
  destruct (truthy (VStr s)) eqn:Hs; [|discriminate].
  destruct (resolution_dict env !! s) as [fields|] eqn:Hf; [|discriminate].
  intros H. apply bind_Return_inv in H as (d & Hfill & H).
  apply bind_Return_inv in H as (lon & _ & H).
  apply bind_Return_inv in H as (lat & _ & [= <-]).
  exists obj, s, fields. simpl.
  split; [done|]. split; [done|]. split.
  { intros ->. discriminate. }
  split; [done|].
  assert (forall k v, d !! k = Some v ->
            (k = "resolution" /\ v = VStr s)
            \/ (In k fields /\ getattr obj k = Return v /\ is_None v = false)) as Hd.
  { intros k v Hk. destruct (fill_data_spec _ _ _ _ Hfill k v Hk) as [H0|H1]; [|tauto].
    left. apply lookup_singleton_Some in H0 as [<- <-]. done. }
  split.
  { destruct (fill_data_keeps _ _ _ _ "resolution" Hfill) as [v Hv].
    - rewrite lookup_singleton_eq. eauto.
    - destruct (Hd _ _ Hv) as [[_ ->]|(_ & Hg & _)]; [done|].
      unfold getattr in Hg. simpl in Hg. rewrite Hres in Hg. by injection Hg as <-. }
  split.
  { intros k v Hk. destruct (Hd _ _ Hk) as [[_ ->]|(_ & _ & Hn)]; done. }
  split.
  { intros k v Hk Hne. destruct (Hd _ _ Hk) as [[-> _]|(Hin & Hg & _)]; done. }
  rewrite !dom_insert_L, dom_empty_L. set_solver.
Qed.

(** X12.  When [extract_news_flash_location] answers a location, the
    event exists and has a non-empty resolution known to
    [resolution_dict]; [data] holds that resolution under "resolution",
    holds no [None] value, and apart from "resolution" only fields that
    [resolution_dict] lists for the resolution, each with the value of
    the event; [gps] holds exactly "lon" and "lat". *)
Theorem extract_news_flash_location_spec (env : Env) (news_flash_id : Z) (loc : location) :
  extract_news_flash_location env news_flash_id = Return (Some loc) ->
  exists obj s fields,
    first_news_flash (Store.news_flash (store env)) news_flash_id = Some obj
    /\ Store.nf_resolution obj = Some s
    /\ s <> ""
    /\ resolution_dict env !! s = Some fields
    /\ data loc !! "resolution" = Some (VStr s)
    /\ (forall k v, data loc !! k = Some v -> is_None v = false)
    /\ (forall k v, data loc !! k = Some v -> k <> "resolution" ->
          In k fields /\ getattr obj k = Return v)
    /\ dom (loc_gps loc) = {[ "lon"; "lat" ]}.
Proof.
  intros H. destruct (extract_news_flash_location_inv env news_flash_id loc H)
    as (obj & s & fields & H1 & H2 & H3 & H4 & H5 & H6 & H7 & H8).
  exists obj, s, fields. repeat split; try done.
  - by apply (H7 k v).
  - by apply (H7 k v).
Qed.

End MoreRequest.

Section RequestContextMore.
Import Request.

(** What a built context is made of. *)
Lemma get_request_params_inv (env : Env) (news_flash_id : Z)
    (number_of_years_ago : years_arg) (rp : RequestParams) :
  get_request_params env news_flash_id number_of_years_ago = Return (Some rp) ->
  exists n loc text r last,
    int_ env number_of_years_ago = Return n
    /\ 0 <= n <= 100
    /\ extract_news_flash_location env news_flash_id = Return (Some loc)
    /\ get_news_flash_location_text env news_flash_id = Return text
    /\ data loc !! "resolution" = Some r
    /\ forallb is_None (List.map snd (map_to_list (delete "resolution" (data loc)))) = false
    /\ max_timestamp (Store.accident_marker_view (store env)) = Some last
    /\ rp = RequestParams_init news_flash_id text (delete "resolution" (data loc)) r
              (loc_gps loc) (Date (year (Store.ts_date last) + 1 - n) 1 1)
              (Store.ts_date last).
Proof.
  unfold get_request_params.
  destruct (int_ env number_of_years_ago) as [n|e] eqn:Hint;
    [|destruct (is_ValueError e); discriminate].
  unfold get_request_params_validated.
  destruct ((n <? 0) || (n >? 100)) eqn:Hrange; [discriminate|].
  apply orb_false_iff in Hrange as [Hlo Hhi].
  apply Z.ltb_ge in Hlo. rewrite Z.gtb_ltb in Hhi. apply Z.ltb_ge in Hhi.
  intros H. apply bind_Return_inv in H as ([loc|] & Hloc & H); [|discriminate].
  apply bind_Return_inv in H as (text & Htext & H).
  apply bind_Return_inv in H as (r & Hr & H).
  destruct (is_None r); [discriminate|].
  destruct (forallb is_None _) eqn:Hall; [discriminate|].
  apply bind_Return_inv in H as (end_d & Hend & H).
  apply bind_Return_inv in H as (start_d & Hstart & [= <-]).
  unfold to_date, get_latest_accident_date in Hend.
  destruct (max_timestamp _) as [last|] eqn:Hmax; [|discriminate].
  injection Hend as <-.
  unfold january_first in Hstart.
  destruct ((1 <=? _) && _); [|discriminate]. injection Hstart as <-.
  exists n, loc, text, r, last.
  destruct (data loc !! "resolution") as [r'|]; [|discriminate].
  injection Hr as ->. repeat split; try done; lia.
Qed.

(** X13.  A built context carries the event id; its [location_info] has
    no "resolution" key, is not empty and holds no [None] value; its
    [resolution] is a one-element tuple around a resolution known to
    [resolution_dict]; its [gps] holds exactly "lon" and "lat". *)
Theorem request_context_invariants (env : Env) (news_flash_id : Z)
    (number_of_years_ago : years_arg) (rp : RequestParams) :
  get_request_params env news_flash_id number_of_years_ago = Return (Some rp) ->
  news_flash_is rp = news_flash_id
  /\ location_info rp !! "resolution" = None
  /\ location_info rp <> ∅
  /\ (forall k v, location_info rp !! k = Some v -> is_None v = false)
  /\ (exists s, resolution rp = VTuple [VStr s] /\ is_Some (resolution_dict env !! s))
  /\ dom (gps rp) = {[ "lon"; "lat" ]}.
Proof.
  intros H.
  apply get_request_params_inv in H
    as (n & loc & text & r & last & _ & _ & Hloc & _ & Hr & Hall & _ & ->).
  apply extract_news_flash_location_inv in Hloc
    as (obj & s & fields & _ & _ & _ & Hf & Hres & Hnone & _ & Hgps).
  simpl. split; [done|]. split; [apply lookup_delete_eq|]. split.
  { intros Hempty. rewrite Hempty, map_to_list_empty in Hall. discriminate. }
  split.
  { intros k v Hk. apply lookup_delete_Some in Hk as [_ Hk]. by apply (Hnone k). }
  split; [|done].
  exists s. rewrite Hres in Hr. injection Hr as <-. split; [done|]. rewrite Hf. eauto.
Qed.

(** X14.  With a lookback of 0 years the start date of the context is
    the first of January of the year after the end date: the window
    starts after it ends. *)
Theorem request_window_lookback_zero (env : Env) (news_flash_id : Z)
    (number_of_years_ago : years_arg) (rp : RequestParams) :
  get_request_params env news_flash_id number_of_years_ago = Return (Some rp) ->
  int_ env number_of_years_ago = Return 0 ->
  start_time rp = Date (year (end_time rp) + 1) 1 1
  /\ Store.date_compare (start_time rp) (end_time rp) = Gt.
Proof.
  intros H H0.
  apply get_request_params_inv in H
    as (n & loc & text & r & last & Hint & _ & _ & _ & _ & _ & _ & ->).
  rewrite H0 in Hint. injection Hint as <-. simpl.
  replace (year (Store.ts_date last) + 1 - 0) with (year (Store.ts_date last) + 1) by lia.
  split; [done|]. unfold Store.date_compare. simpl.
  by rewrite (proj2 (Z.compare_gt_iff _ _)) by lia.
Qed.

(** X15.  The resolution of a built context is a tuple, never the text
    of the inter-city road resolution: called with the resolution and
    the location of a built context, as [create_infographics_data] does,
    [get_top_road_segments_accidents_per_km] answers the empty
    dictionary for every store, time window and limit. *)
Theorem top_road_segments_of_context_empty (env : Env) (news_flash_id : Z)
    (number_of_years_ago : years_arg) (rp : RequestParams)
    (store : Store.db) (start_time end_time : option date) (limit : Z) :
  get_request_params env news_flash_id number_of_years_ago = Return (Some rp) ->
  TopSegments.get_top_road_segments_accidents_per_km store (resolution rp)
    (location_info rp) start_time end_time limit = Return TopSegments.EmptyDict.
Proof.
  intros H.
  apply get_request_params_inv in H
    as (n & loc & text & r & last & _ & _ & _ & _ & _ & _ & _ & ->).
  reflexivity.
Qed.

(** X16.  With a lookback of [0, 100], an event that is not in the
    store, or whose resolution is missing, empty or unknown to
    [resolution_dict], makes [get_request_params] answer [None]. *)
Theorem get_request_params_unresolved_event (env : Env) (news_flash_id : Z)
    (number_of_years_ago : years_arg) (n : Z) :
  int_ env number_of_years_ago = Return n ->
  0 <= n <= 100 ->
  first_news_flash (Store.news_flash (store env)) news_flash_id = None
  \/ (exists obj,
        first_news_flash (Store.news_flash (store env)) news_flash_id = Some obj
        /\ (Store.nf_resolution obj = None
            \/ Store.nf_resolution obj = Some ""
            \/ exists s, Store.nf_resolution obj = Some s
                         /\ resolution_dict env !! s = None)) ->
  get_request_params env news_flash_id number_of_years_ago = Return None.
Proof.
  intros Hint Hn H.
  unfold get_request_params. rewrite Hint. unfold get_request_params_validated.
  rewrite (proj2 (Z.ltb_ge n 0)) by lia.
  rewrite Z.gtb_ltb, (proj2 (Z.ltb_ge 100 n)) by lia. simpl.
  assert (extract_news_flash_location env news_flash_id = Return None) as ->; [|done].
  unfold extract_news_flash_location.
  destruct H as [->|(obj & -> & [->|[->|(s & -> & Hs)]])]; try done.
  destruct (truthy (VStr s)); [|done]. by rewrite Hs.
Qed.

Lemma fill_data_all_None (obj : Store.NewsFlash) (fields : list string)
    (d : gmap string value) :
  Forall (fun f => getattr obj f = Return VNone) fields ->
  fill_data obj fields d = Return d.
Proof.
  intros H. induction H as [|f fields Hf _ IH]; simpl; [done|].
  by rewrite Hf, bind_Return.
Qed.

(** X17.  With a lookback of [0, 100], an event whose location fields
    (those that [resolution_dict] lists for its resolution) are all
    [None] makes [get_request_params] answer [None], once the display
    text has been computed. *)
Theorem get_request_params_no_location (env : Env) (news_flash_id : Z)
    (number_of_years_ago : years_arg) (n : Z) (obj : Store.NewsFlash)
    (s text : string) (fields : list string) :
  int_ env number_of_years_ago = Return n ->
  0 <= n <= 100 ->
  first_news_flash (Store.news_flash (store env)) news_flash_id = Some obj ->
  Store.nf_resolution obj = Some s ->
  s <> "" ->
  resolution_dict env !! s = Some fields ->
  Forall (fun f => getattr obj f = Return VNone) fields ->
  get_news_flash_location_text env news_flash_id = Return text ->
  get_request_params env news_flash_id number_of_years_ago = Return None.
Proof.
  intros Hint Hn Hobj Hres Hs Hf Hnone Htext.
  unfold get_request_params. rewrite Hint. unfold get_request_params_validated.
  rewrite (proj2 (Z.ltb_ge n 0)) by lia.
  rewrite Z.gtb_ltb, (proj2 (Z.ltb_ge 100 n)) by lia. simpl.
  unfold extract_news_flash_location. rewrite Hobj, Hres.
  assert (truthy (VStr s) = true) as ->.
  { destruct s; [done | reflexivity]. }
  rewrite Hf, (fill_data_all_None _ _ _ Hnone). simpl.
  rewrite Htext. simpl.
  rewrite lookup_singleton_eq. simpl.
  by rewrite delete_singleton_eq, map_to_list_empty.
Qed.

(** X18.  When the lookback and the event are valid but the accident
    table is empty, [get_request_params] raises [AttributeError]: there
    is no latest accident to take the end date from. *)
Theorem get_request_params_without_accidents (env : Env) (news_flash_id : Z)
    (number_of_years_ago : years_arg) (n : Z) (loc : location) (text : string)
    (r : value) :
  int_ env number_of_years_ago = Return n ->
  0 <= n <= 100 ->
  extract_news_flash_location env news_flash_id = Return (Some loc) ->
  get_news_flash_location_text env news_flash_id = Return text ->
  data loc !! "resolution" = Some r ->
  forallb is_None (List.map snd (map_to_list (delete "resolution" (data loc)))) = false ->
  Store.accident_marker_view (store env) = [] ->
  get_request_params env news_flash_id number_of_years_ago
  = Raise (raised AttributeError).
Proof.
  intros Hint Hn Hloc Htext Hr Hall Hempty.
  assert (is_None r = false) as Hnone.
  { apply extract_news_flash_location_inv in Hloc
      as (obj & s & fields & _ & _ & _ & _ & _ & Hnone & _). by apply (Hnone "resolution"). }
  unfold get_request_params. rewrite Hint. unfold get_request_params_validated.
  rewrite (proj2 (Z.ltb_ge n 0)) by lia.
  rewrite Z.gtb_ltb, (proj2 (Z.ltb_ge 100 n)) by lia. simpl.
  rewrite Hloc. simpl. rewrite Htext. simpl. rewrite Hr. simpl.
  rewrite Hnone, Hall. unfold get_latest_accident_date. by rewrite Hempty.
Qed.

(** The registry holds only cacheable descriptors: asked for the other
    ones, [generate_widgets] calls no generator and answers []. *)
Lemma generate_widgets_fresh_empty (env : Env) (rp : option RequestParams) :
  Widgets.generate_widgets rp (get_widgets_def env) false = Return [].
Proof. reflexivity. Qed.


End RequestContextMore.

(** ** Filters of the injured counts *)

Section InjuredFiltersFacts.
Import InjuredFilters.

Lemma dict_lookup_setitem {A} (k k' : string) (v : A) (d : list (string * A)) :
  Dict.lookup k' (Dict.setitem k v d)
  = if String.eqb k k' then Some v else Dict.lookup k' d.
Proof.
  induction d as [|[k0 v0] d IH]; simpl.
  - by destruct (String.eqb k k').
  - destruct (String.eqb_spec k0 k) as [->|Hne]; simpl.
    + by destruct (String.eqb k k').
    + rewrite IH. destruct (String.eqb_spec k0 k') as [->|Hne'].
      * by rewrite (proj2 (String.eqb_neq k k')) by congruence.
      * done.
Qed.

Lemma dict_lookup_app {A} (k : string) (d e : list (string * A)) :
  Dict.lookup k (d ++ e)
  = match Dict.lookup k d with Some v => Some v | None => Dict.lookup k e end.
Proof.
  induction d as [|[k0 v0] d IH]; simpl; [done|]. by destruct (String.eqb k0 k).
Qed.

Lemma dict_lookup_None {A} (k : string) (d : list (string * A)) :
  Dict.lookup k d = None <-> ~ In k (Dict.dict_keys d).
Proof.
  induction d as [|[k0 v0] d IH]; simpl; [tauto|].
  destruct (String.eqb_spec k0 k) as [->|Hne]; [split; [discriminate|tauto]|].
  rewrite IH. tauto.
Qed.

Lemma dict_lookup_NoDup {A} (k : string) (v : A) (d : list (string * A)) :
  List.NoDup (Dict.dict_keys d) -> In (k, v) d -> Dict.lookup k d = Some v.
Proof.
  induction d as [|[k0 v0] d IH]; simpl; [done|].
  intros [Hnotin Hnd]%List.NoDup_cons_iff [[= -> ->]|Hin].
  - by rewrite String.eqb_refl.
  - destruct (String.eqb_spec k0 k) as [->|Hne]; [|by apply IH].
    exfalso. apply Hnotin. apply in_map_iff. by exists (k, v).
Qed.

(** The dictionary after the loop: the last value written under each
    new name. *)
Lemma fold_filter_step (d acc : list (string * value)) (K : string) :
  Dict.lookup K (fold_left filter_step d acc)
  = match Dict.lookup K (rev (List.map rename d)) with
    | Some v => Some v
    | None => Dict.lookup K acc
    end.
Proof.
  revert acc. induction d as [|[k v] d IH]; intros acc; simpl; [done|].
  rewrite IH, dict_lookup_app.
  destruct (Dict.lookup K (rev (List.map rename d))); [done|].
  unfold filter_step, rename, new_name. simpl.
  destruct (is_renamed k); rewrite dict_lookup_setitem;
    by destruct (String.eqb _ K).
Qed.

Lemma new_name_not_bare (k k' : string) :
  In k ["region_hebrew"; "district_hebrew"; "yishuv_name"] -> new_name k' <> k.
Proof.
  intros Hk. unfold new_name.
  destruct (is_renamed k') eqn:E.
  - simpl in Hk. repeat (destruct Hk as [<-|Hk]; [discriminate|]). done.
  - intros ->. simpl in Hk.
    repeat (destruct Hk as [<-|Hk]; [discriminate|]). done.
Qed.

(** X20.  The filters of the injured counts always restrict
    "injury_severity" to 1..5, whatever the input holds under that key,
    and never hold a region, district or town filter under its bare
    name. *)
Theorem get_injured_filters_keys (location_info : list (string * value)) :
  Dict.lookup "injury_severity" (get_injured_filters location_info)
  = Some injury_severities
  /\ forall k, In k ["region_hebrew"; "district_hebrew"; "yishuv_name"] ->
       Dict.lookup k (get_injured_filters location_info) = None.
Proof.
  unfold get_injured_filters. split.
  - by rewrite dict_lookup_setitem, String.eqb_refl.
  - intros k Hk. rewrite dict_lookup_setitem.
    replace (String.eqb "injury_severity" k) with false
      by (simpl in Hk; repeat (destruct Hk as [<-|Hk]; [reflexivity|]); done).
    rewrite fold_filter_step. simpl.
    replace (Dict.lookup k (rev (List.map rename location_info))) with (@None value); [done|].
    symmetry. apply dict_lookup_None. unfold Dict.dict_keys.
    rewrite List.map_rev, <- in_rev, List.map_map. simpl.
    intros [kv [Hkv _]]%in_map_iff. by apply new_name_not_bare in Hkv.
Qed.

(** X21.  When no two input keys get the same new name, every input
    value is found under the new name of its key (the key prefixed with
    "accident_" for region, district and town, the key itself
    otherwise), unless that name is "injury_severity". *)
Theorem get_injured_filters_values (location_info : list (string * value))
    (k : string) (v : value) :
  List.NoDup (List.map new_name (Dict.dict_keys location_info)) ->
  In (k, v) location_info ->
  new_name k <> "injury_severity" ->
  Dict.lookup (new_name k) (get_injured_filters location_info) = Some v.
Proof.
  intros Hnd Hin Hne. unfold get_injured_filters.
  rewrite dict_lookup_setitem.
  rewrite (proj2 (String.eqb_neq "injury_severity" (new_name k))) by congruence.
  rewrite fold_filter_step.
  rewrite (dict_lookup_NoDup (new_name k) v); [done| |].
  - unfold Dict.dict_keys in *. rewrite List.map_rev, List.map_map.
    apply List.NoDup_rev. by rewrite List.map_map in Hnd.
  - rewrite <- in_rev. apply in_map_iff. by exists (k, v).
Qed.

End InjuredFiltersFacts.

(** ** Driver types and car types *)

Section VehiclesFacts.
Import Vehicles.
Variable BE_CONST : constants.

Lemma fold_driver_step_sum (data : list item) (d : AgeGroup.defaultdict) :
  AgeGroup.sum_values (fold_left (driver_step BE_CONST) data d)
  = AgeGroup.sum_values d + item_total (counted_drivers BE_CONST data).
Proof.
  revert d. induction data as [|it data IH]; intros d; simpl; [lia|].
  rewrite IH. unfold driver_step.
  destruct (driver_key BE_CONST (involve_vehicle_type it)); simpl;
    rewrite ?sum_values_iadd; lia.
Qed.

Lemma fold_driver_step_NoDup (data : list item) (d : AgeGroup.defaultdict) :
  List.NoDup (AgeGroup.keys d) ->
  List.NoDup (AgeGroup.keys (fold_left (driver_step BE_CONST) data d)).
Proof.
  revert d. induction data as [|it data IH]; intros d Hnd; simpl; [done|].
  apply IH. unfold driver_step.
  destruct (driver_key BE_CONST (involve_vehicle_type it)); [by apply dd_iadd_NoDup | done].
Qed.

Lemma driver_key_label (t : option Z) (k : string) :
  driver_key BE_CONST t = Some k ->
  In k [professional_driver BE_CONST; private_vehicle_driver BE_CONST;
        other_driver BE_CONST].
Proof.
  unfold driver_key.
  repeat (match goal with |- context [if ?c then _ else _] => destruct c end);
    intros [= <-]; simpl; tauto.
Qed.

Lemma fold_driver_step_keys (data : list item) (d : AgeGroup.defaultdict) (x : string) :
  In x (AgeGroup.keys (fold_left (driver_step BE_CONST) data d)) ->
  In x (AgeGroup.keys d)
  \/ In x [professional_driver BE_CONST; private_vehicle_driver BE_CONST;
           other_driver BE_CONST].
Proof.
  revert d. induction data as [|it data IH]; intros d; simpl; [tauto|].
  intros [H|H]%IH; [|tauto]. unfold driver_step in H.
  destruct (driver_key BE_CONST (involve_vehicle_type it)) as [k|] eqn:E; [|tauto].
  rewrite dd_iadd_keys in H. destruct (AgeGroup.dd_lookup k d); [tauto|].
  apply in_app_or in H as [H|[<-|[]]]; [tauto|].
  right. by apply driver_key_label in E.
Qed.

(** X22.  The driver-type counts list each of the three driver types at
    most once, and add up to the counts of the records whose vehicle
    type belongs to one of the driver-type lists: the records of any
    other vehicle type, or without vehicle type, are left out. *)
Theorem count_accidents_by_driver_type_total (data : list item) :
  let output := count_accidents_by_driver_type BE_CONST data in
  driver_count_total output = item_total (counted_drivers BE_CONST data)
  /\ List.NoDup (List.map driver_type output)
  /\ (forall r, In r output ->
        In (driver_type r) [professional_driver BE_CONST; private_vehicle_driver BE_CONST;
                            other_driver BE_CONST])
  /\ (List.length output <= 3)%nat.
Proof.
  simpl. unfold count_accidents_by_driver_type.
  set (d := fold_left (driver_step BE_CONST) data []).
  assert (List.NoDup (AgeGroup.keys d)) as Hnd
    by (apply fold_driver_step_NoDup, List.NoDup_nil).
  assert (forall x, In x (AgeGroup.keys d) ->
            In x [professional_driver BE_CONST; private_vehicle_driver BE_CONST;
                  other_driver BE_CONST]) as Hkeys.
  { intros x Hx. by apply fold_driver_step_keys in Hx as [[]|Hx]. }
  split; [|split; [|split]].
  - transitivity (AgeGroup.sum_values d).
    + clear. induction d as [|kv d IH]; simpl; [done|]. by rewrite IH.
    + unfold d. rewrite fold_driver_step_sum. simpl. lia.
  - by rewrite List.map_map.
  - intros r [kv [<- Hin]]%in_map_iff. simpl. apply Hkeys. apply in_map_iff. eauto.
  - rewrite List.length_map.
    pose proof (List.NoDup_incl_length Hnd Hkeys) as Hlen.
    unfold AgeGroup.keys in Hlen. rewrite List.length_map in Hlen. exact Hlen.
Qed.

Lemma fold_car_step (data : list item) (t : Z) (d : AgeGroup.defaultdict) :
  fold_left (car_step BE_CONST) data (t, d)
  = (t + item_total data, fold_left (car_sums_step BE_CONST) data d).
Proof.
  revert t d. induction data as [|it data IH]; intros t d; simpl.
  - f_equal. lia.
  - rewrite IH. f_equal. lia.
Qed.

Lemma dd_iadd_nonempty (k : string) (c : Z) (d : AgeGroup.defaultdict) :
  AgeGroup.dd_iadd k c d <> [].
Proof.
  unfold AgeGroup.dd_iadd, AgeGroup.dd_getitem.
  destruct (AgeGroup.dd_lookup k d) eqn:E; simpl.
  - destruct d as [|[k0 v0] d]; [discriminate|]. simpl. by destruct (String.eqb k0 k).
  - destruct d as [|[k0 v0] d]; simpl; [by rewrite String.eqb_refl|].
    by destruct (String.eqb k0 k).
Qed.

Lemma fold_car_sums_nonempty (data : list item) (d : AgeGroup.defaultdict) :
  d <> [] \/ data <> [] -> fold_left (car_sums_step BE_CONST) data d <> [].
Proof.
  revert d. induction data as [|it data IH]; intros d; simpl.
  - intros [H|H]; done.
  - intros _. apply IH. left. apply dd_iadd_nonempty.
Qed.

Lemma car_key_label (t : option Z) : In (car_key BE_CONST t) car_labels.
Proof.
  unfold car_key, car_labels.
  repeat (match goal with |- context [if ?c then _ else _] => destruct c end);
    simpl; tauto.
Qed.

Lemma fold_car_sums_keys (data : list item) (d : AgeGroup.defaultdict) (x : string) :
  In x (AgeGroup.keys (fold_left (car_sums_step BE_CONST) data d)) ->
  In x (AgeGroup.keys d) \/ In x car_labels.
Proof.
  revert d. induction data as [|it data IH]; intros d; simpl; [tauto|].
  intros [H|H]%IH; [|tauto]. unfold car_sums_step in H.
  rewrite dd_iadd_keys in H. destruct (AgeGroup.dd_lookup _ d); [tauto|].
  apply in_app_or in H as [H|[<-|[]]]; [tauto|]. right. apply car_key_label.
Qed.

Lemma fold_car_sums_NoDup (data : list item) (d : AgeGroup.defaultdict) :
  List.NoDup (AgeGroup.keys d) ->
  List.NoDup (AgeGroup.keys (fold_left (car_sums_step BE_CONST) data d)).
Proof.
  revert d. induction data as [|it data IH]; intros d Hnd; simpl; [done|].
  apply IH. by apply dd_iadd_NoDup.
Qed.

Lemma percentages_zero (d : AgeGroup.defaultdict) :
  d <> [] -> percentages 0 d = Raise ZeroDivisionError.
Proof. destruct d as [|[k v] d]; [done|]. reflexivity. Qed.

Lemma percentages_nonzero (t : Z) (d : AgeGroup.defaultdict) :
  t <> 0 ->
  exists output, percentages t d = Return output
                 /\ Dict.dict_keys output = AgeGroup.keys d.
Proof.
  intros Ht. induction d as [|[k v] d (out & IH & Hk)]; simpl.
  - by exists [].
  - rewrite (proj2 (Z.eqb_neq t 0)) by done. rewrite IH, bind_Return.
    eexists. split; [reflexivity|]. simpl. by rewrite Hk.
Qed.

(** The three cases of [percentage_accidents_by_car_type]. *)
Lemma percentage_accidents_by_car_type_aux (data : list item) :
  (data = [] -> percentage_accidents_by_car_type BE_CONST data = Return [])
  /\ (data <> [] -> item_total data = 0 ->
      percentage_accidents_by_car_type BE_CONST data = Raise ZeroDivisionError)
  /\ (item_total data <> 0 ->
      exists output,
        percentage_accidents_by_car_type BE_CONST data = Return output
        /\ List.NoDup (Dict.dict_keys output)
        /\ (forall k, In k (Dict.dict_keys output) -> In k car_labels)
        /\ (List.length output <= 5)%nat).
Proof.
  unfold percentage_accidents_by_car_type. rewrite fold_car_step. simpl.
  split; [|split].
  - by intros ->.
  - intros Hne ->. apply percentages_zero, fold_car_sums_nonempty. tauto.
  - intros Ht.
    destruct (percentages_nonzero (item_total data) (fold_left (car_sums_step BE_CONST) data []) Ht)
      as (output & Hout & Hkeys).
    exists output. split; [done|].
    assert (List.NoDup (AgeGroup.keys (fold_left (car_sums_step BE_CONST) data []))) as Hnd
      by (apply fold_car_sums_NoDup, List.NoDup_nil).
    assert (forall x, In x (AgeGroup.keys (fold_left (car_sums_step BE_CONST) data [])) ->
              In x car_labels) as Hin.
    { intros x Hx. by apply fold_car_sums_keys in Hx as [[]|Hx]. }
    rewrite Hkeys. split; [done|]. split; [done|].
    pose proof (List.NoDup_incl_length Hnd Hin) as Hlen.
    rewrite <- Hkeys in Hlen.
    unfold Dict.dict_keys in Hlen. rewrite List.length_map in Hlen. exact Hlen.
Qed.

(** X23.  The car-type percentages of an empty input are the empty
    dictionary; for an input that is not empty and whose counts add up
    to zero the function raises [ZeroDivisionError]; in every other case
    it answers, with at most five entries, of distinct labels, all among
    the five car types. *)
Theorem percentage_accidents_by_car_type_cases (data : list item) :
  (data = [] -> percentage_accidents_by_car_type BE_CONST data = Return [])
  /\ (data <> [] -> item_total data = 0 ->
      percentage_accidents_by_car_type BE_CONST data = Raise ZeroDivisionError)
  /\ (item_total data <> 0 ->
      exists output,
        percentage_accidents_by_car_type BE_CONST data = Return output
        /\ List.NoDup (Dict.dict_keys output)
        /\ (forall k, In k (Dict.dict_keys output) -> In k car_labels)
        /\ (List.length output <= 5)%nat).
Proof.
  destruct (percentage_accidents_by_car_type_aux data) as (Hempty & Hzero & Hok).
  split; [exact Hempty | split; [exact Hzero | exact Hok]].
Qed.

(** X24.  The comparison with the national data lists exactly the car
    types of the national data, in their order, each with its national
    percentage when the national dictionary has distinct keys; with an
    empty local input every local percentage is 0; a local input that is
    not empty and whose counts add up to zero raises
    [ZeroDivisionError], whatever the national data. *)
Theorem stats_accidents_by_car_type_with_national_data_spec
    (national_data_cache : date -> date -> outcome (list (string * Q)))
    (data : list item) (start_time end_time : date) :
  (data <> [] -> item_total data = 0 ->
   stats_accidents_by_car_type_with_national_data BE_CONST national_data_cache
     data start_time end_time = Raise ZeroDivisionError)
  /\ (forall national_data,
        data = [] \/ item_total data <> 0 ->
        national_data_cache start_time end_time = Return national_data ->
        exists out,
          stats_accidents_by_car_type_with_national_data BE_CONST national_data_cache
            data start_time end_time = Return out
          /\ List.map car_type out = Dict.dict_keys national_data
          /\ (List.NoDup (Dict.dict_keys national_data) ->
              List.map (fun r => (car_type r, percentage_country r)) out = national_data)
          /\ (data = [] -> Forall (fun r => percentage_segment r = 0%Q) out)).
Proof.
  destruct (percentage_accidents_by_car_type_aux data) as (Hempty & Hzero & Hok).
  unfold stats_accidents_by_car_type_with_national_data. split.
  - intros Hne Ht. by rewrite (Hzero Hne Ht).
  - intros national_data Hdata Hnat.
    assert (exists local, percentage_accidents_by_car_type BE_CONST data = Return local
                          /\ (data = [] -> local = [])) as (local & Hlocal & Hl).
    { destruct Hdata as [->|Ht].
      - exists []. split; [reflexivity | done].
      - destruct (Hok Ht) as (output & Hout & _). exists output. split; [done|].
        intros ->. simpl in Ht. done. }
    rewrite Hlocal, bind_Return, Hnat, bind_Return.
    eexists. split; [reflexivity|].
    split; [by rewrite List.map_map|]. split.
    + intros Hnd. rewrite List.map_map. simpl.
      rewrite <- (List.map_id national_data) at 2.
      apply List.map_ext_in. intros [k q] Hin. simpl. unfold percentage_of.
      by rewrite (dict_lookup_NoDup k q national_data Hnd Hin).
    + intros Hd. rewrite (Hl Hd). apply List.Forall_forall.
      intros r [kv [<- _]]%in_map_iff. reflexivity.
Qed.

End VehiclesFacts.

(** ** Head-on collisions comparison *)

Section HeadOnFacts.
Import HeadOn.
Variable comparison_dict : dictionary.

Lemma fold_sum_step_sum (field_name : string) (road_data : list AccidentType.item)
    (d : AgeGroup.defaultdict) :
  AgeGroup.sum_values (fold_left (sum_step comparison_dict field_name) road_data d)
  = AgeGroup.sum_values d + AccidentType.total road_data.
Proof.
  revert d. induction road_data as [|x l IH]; intros d; simpl; [lia|].
  rewrite IH. unfold sum_step.
  destruct (String.eqb _ field_name); rewrite sum_values_iadd; lia.
Qed.

Lemma fold_sum_step_two (field_name : string) (road_data : list AccidentType.item)
    (a b : Z) :
  field_name <> others comparison_dict ->
  fold_left (sum_step comparison_dict field_name) road_data
    [(field_name, a); (others comparison_dict, b)]
  = [(field_name,
      a + AccidentType.total
            (List.filter (fun it => String.eqb (AccidentType.accident_type it) field_name)
               road_data));
     (others comparison_dict,
      b + AccidentType.total
            (List.filter
               (fun it => negb (String.eqb (AccidentType.accident_type it) field_name))
               road_data))].
Proof.
  intros Hne. revert a b. induction road_data as [|x l IH]; intros a b; simpl.
  - by rewrite !Z.add_0_r.
  - unfold sum_step at 2.
    destruct (String.eqb (AccidentType.accident_type x) field_name); simpl.
    + unfold AgeGroup.dd_iadd, AgeGroup.dd_getitem. simpl.
      rewrite String.eqb_refl. simpl. rewrite String.eqb_refl.
      rewrite IH. by rewrite !Z.add_assoc.
    + unfold AgeGroup.dd_iadd, AgeGroup.dd_getitem. simpl.
      rewrite (proj2 (String.eqb_neq _ _) Hne), String.eqb_refl. simpl.
      rewrite (proj2 (String.eqb_neq _ _) Hne), String.eqb_refl.
      rewrite IH. by rewrite !Z.add_assoc.
Qed.

(** The sums of [sum_road_accidents_by_specific_type]. *)
Lemma sum_road_accidents_by_specific_type_aux
    (road_data : list AccidentType.item) (field_name : string) :
  AgeGroup.sum_values
    (sum_road_accidents_by_specific_type comparison_dict road_data field_name)
  = AccidentType.total road_data
  /\ (field_name <> others comparison_dict ->
      sum_road_accidents_by_specific_type comparison_dict road_data field_name
      = [(field_name,
          AccidentType.total
            (List.filter (fun it => String.eqb (AccidentType.accident_type it) field_name)
               road_data));
         (others comparison_dict,
          AccidentType.total
            (List.filter
               (fun it => negb (String.eqb (AccidentType.accident_type it) field_name))
               road_data))]).
Proof.
  unfold sum_road_accidents_by_specific_type. split.
  - rewrite fold_sum_step_sum, sum_values_setitem. simpl.
    unfold AgeGroup.dd_get. simpl.
    destruct (String.eqb field_name (others comparison_dict)); simpl; lia.
  - intros Hne. simpl. rewrite (proj2 (String.eqb_neq _ _) Hne).
    by rewrite fold_sum_step_two.
Qed.

(** X25.  The two sums conserve the input: the values of the result add
    up to the counts of [road_data]; and when [field_name] is not the
    label of the other accidents, the result holds exactly two entries,
    first the sum of the records of type [field_name], then the sum of
    all the other records, both 0 for an empty input. *)
Theorem sum_road_accidents_by_specific_type_spec
    (road_data : list AccidentType.item) (field_name : string) :
  AgeGroup.sum_values
    (sum_road_accidents_by_specific_type comparison_dict road_data field_name)
  = AccidentType.total road_data
  /\ (field_name <> others comparison_dict ->
      sum_road_accidents_by_specific_type comparison_dict road_data field_name
      = [(field_name,
          AccidentType.total
            (List.filter (fun it => String.eqb (AccidentType.accident_type it) field_name)
               road_data));
         (others comparison_dict,
          AccidentType.total
            (List.filter
               (fun it => negb (String.eqb (AccidentType.accident_type it) field_name))
               road_data))]).
Proof.
  destruct (sum_road_accidents_by_specific_type_aux road_data field_name) as [Hsum Htwo].
  split; [exact Hsum | exact Htwo].
Qed.

Lemma convert_total (d : AgeGroup.defaultdict) :
  desc_count_total (convert_roads_fatal_accidents_to_frontend_view comparison_dict d)
  = AgeGroup.sum_values d.
Proof.
  induction d as [|[k v] d IH]; simpl; [done|]. rewrite IH.
  by destruct (String.eqb k (head_to_head_collision comparison_dict)).
Qed.

Section WithQueryLayer.
Variable fatal_accidents_by_type :
  option (value * value) -> date -> date -> outcome (list AccidentType.item).

(** X26.  When [get_head_to_head_stat] answers, the national query has
    answered, and the counts of the national list add up to the counts
    of that answer: head-on and other accidents together lose and add
    nothing. *)
Theorem get_head_to_head_stat_conserves (table : list Store.NewsFlash)
    (news_flash_id : Z) (start_time end_time : date) (r : head_to_head_stat) :
  get_head_to_head_stat comparison_dict fatal_accidents_by_type table news_flash_id
    start_time end_time = Return r ->
  exists all_roads_data,
    fatal_accidents_by_type None start_time end_time = Return all_roads_data
    /\ desc_count_total (all_roads_fatal_accidents r) = AccidentType.total all_roads_data.
Proof.
  unfold get_head_to_head_stat. intros H.
  apply bind_Return_inv in H as (all_roads_data & Hall & H).
  apply bind_Return_inv in H as (road1 & _ & H).
  apply bind_Return_inv in H as (road_data & _ & [= <-]).
  exists all_roads_data. split; [done|]. simpl.
  rewrite convert_total.
  apply (proj1 (sum_road_accidents_by_specific_type_aux all_roads_data head_on)).
Qed.

(** X27.  For an event that is not in the store, [get_head_to_head_stat]
    raises [AttributeError] once the national query has answered; when
    the national query raises, that exception comes first. *)
Theorem get_head_to_head_stat_unknown_event (table : list Store.NewsFlash)
    (news_flash_id : Z) (start_time end_time : date) :
  Request.first_news_flash table news_flash_id = None ->
  (forall all_roads_data,
     fatal_accidents_by_type None start_time end_time = Return all_roads_data ->
     get_head_to_head_stat comparison_dict fatal_accidents_by_type table news_flash_id
       start_time end_time = Raise (raised AttributeError))
  /\ (forall e,
        fatal_accidents_by_type None start_time end_time = Raise e ->
        get_head_to_head_stat comparison_dict fatal_accidents_by_type table news_flash_id
          start_time end_time = Raise e).
Proof.
  intros Hobj. unfold get_head_to_head_stat. rewrite Hobj. split.
  - intros all Hall. by rewrite Hall.
  - intros e He. by rewrite He.
Qed.

(** X28.  For an event without road (the attribute [road1] is [None] or
    0), no query is made for the segment and, when "head-on" is not the
    label of the other accidents, the list of the segment holds two
    entries of count 0. *)
Theorem get_head_to_head_stat_without_road (table : list Store.NewsFlash)
    (news_flash_id : Z) (start_time end_time : date) (obj : Store.NewsFlash)
    (road1 : value) (all_roads_data : list AccidentType.item) :
  head_on <> others comparison_dict ->
  Request.first_news_flash table news_flash_id = Some obj ->
  Request.getattr obj "road1" = Return road1 ->
  truthy road1 = false ->
  fatal_accidents_by_type None start_time end_time = Return all_roads_data ->
  exists r,
    get_head_to_head_stat comparison_dict fatal_accidents_by_type table news_flash_id
      start_time end_time = Return r
    /\ List.map desc_total (specific_road_segment_fatal_accidents r) = [0; 0].
Proof.
  intros Hne Hobj Hroad Hfalsy Hall. unfold get_head_to_head_stat.
  rewrite Hobj, Hall, bind_Return. unfold obj_attribute.
  rewrite Hroad, bind_Return, Hfalsy, bind_Return.
  eexists. split; [reflexivity|]. simpl.
  rewrite (proj2 (sum_road_accidents_by_specific_type_aux [] head_on) Hne). simpl.
  by repeat (match goal with |- context [if ?c then _ else _] => destruct c end).
Qed.

End WithQueryLayer.

End HeadOnFacts.

(** ** Examples of the further properties *)

Section FurtherExamples.
Import Request.

(** X2 at a registry whose second generator raises [TypeError]. *)
Lemma generate_widgets_propagates_witness :
  Widgets.generate_widgets None [Demo2.shown; Demo2.failing] true
  = Raise (raised TypeError).
Proof.
  apply (generate_widgets_propagates None [Demo2.shown; Demo2.failing] true
           [Demo2.shown] Demo2.failing [] [Demo.widget] (raised TypeError)).
  - reflexivity.
  - repeat constructor.
  - reflexivity.
Defined.

(** X3 at two registries of one entry. *)
Lemma generate_widgets_app_witness :
  Widgets.generate_widgets None ([Demo2.shown] ++ [Demo2.shown]) true
  = Return ([Widgets.serialize Demo.widget] ++ [Widgets.serialize Demo.widget]).
Proof.
  apply (generate_widgets_app None [Demo2.shown] [Demo2.shown] true); reflexivity.
Defined.

(** X4 at a widget with an empty text and an empty meta. *)
Lemma serialize_empty_as_absent_witness :
  Widgets.serialize Demo2.blank_widget
  = Widgets.serialize
      {| Widgets.request_params := Widgets.request_params Demo2.blank_widget;
         Widgets.name := Widgets.name Demo2.blank_widget;
         Widgets.rank := Widgets.rank Demo2.blank_widget;
         Widgets.items := Widgets.items Demo2.blank_widget;
         Widgets.text := VNone;
         Widgets.meta := None |}.
Proof.
  apply (serialize_empty_as_absent Demo2.blank_widget); [reflexivity | by right].
Defined.

(** X8 at two records followed by " years". *)
Lemma age_groups_ignore_suffix_witness :
  AgeGroup.filter_and_group_injured_count_per_age_group
    (List.map (with_suffix " years") Demo2.ages)
  = AgeGroup.filter_and_group_injured_count_per_age_group Demo2.ages.
Proof.
  apply (age_groups_ignore_suffix " years" Demo2.ages).
  repeat constructor; discriminate.
Defined.

(** X9 at a location without road. *)
Lemma top_road_segments_missing_road1_witness :
  TopSegments.get_top_road_segments_accidents_per_km Demo.roads
    (VStr TopSegments.inter_city_road) ∅ None None 5
  = Raise (raised KeyError).
Proof. apply top_road_segments_missing_road1. reflexivity. Defined.

(** X10 at the limit -1. *)
Lemma top_road_segments_negative_limit_witness :
  exists e,
    TopSegments.get_top_road_segments_accidents_per_km Demo.roads
      (VStr TopSegments.inter_city_road) Demo.on_road_90 None None (-1) = Raise e.
Proof. apply top_road_segments_negative_limit. lia. Defined.


(** X12 at the news flash of the examples. *)
Lemma extract_news_flash_location_spec_witness :
  extract_news_flash_location Demo.env 1 = Return (Some Demo2.location1)
  /\ exists obj s fields,
       first_news_flash (Store.news_flash (store Demo.env)) 1 = Some obj
       /\ Store.nf_resolution obj = Some s
       /\ s <> ""
       /\ resolution_dict Demo.env !! s = Some fields
       /\ data Demo2.location1 !! "resolution" = Some (VStr s)
       /\ (forall k v, data Demo2.location1 !! k = Some v -> is_None v = false)
       /\ (forall k v, data Demo2.location1 !! k = Some v -> k <> "resolution" ->
             In k fields /\ getattr obj k = Return v)
       /\ dom (loc_gps Demo2.location1) = {[ "lon"; "lat" ]}.
Proof.
  split; [vm_compute; reflexivity|].
  apply (extract_news_flash_location_spec Demo.env 1 Demo2.location1).
  vm_compute. reflexivity.
Defined.

(** X13 at the news flash of the examples, three years back. *)
Lemma request_context_invariants_witness :
  exists rp,
    get_request_params Demo.env 1 (YearsInt 3) = Return (Some rp)
    /\ news_flash_is rp = 1
    /\ location_info rp !! "resolution" = None
    /\ location_info rp <> ∅
    /\ (forall k v, location_info rp !! k = Some v -> is_None v = false)
    /\ (exists s, resolution rp = VTuple [VStr s]
                  /\ is_Some (resolution_dict Demo.env !! s))
    /\ dom (gps rp) = {[ "lon"; "lat" ]}.
Proof.
  eexists. split; [vm_compute; reflexivity|].
  apply (request_context_invariants Demo.env 1 (YearsInt 3)). vm_compute. reflexivity.
Defined.

(** X14 at the news flash of the examples, zero years back: the window
    is 2021-01-01 .. 2020-06-15. *)
Lemma request_window_lookback_zero_witness :
  exists rp,
    get_request_params Demo.env 1 (YearsInt 0) = Return (Some rp)
    /\ end_time rp = Date 2020 6 15
    /\ start_time rp = Date (year (end_time rp) + 1) 1 1
    /\ Store.date_compare (start_time rp) (end_time rp) = Gt.
Proof.
  eexists. split; [vm_compute; reflexivity|]. split; [reflexivity|].
  apply (request_window_lookback_zero Demo.env 1 (YearsInt 0));
    [vm_compute; reflexivity | reflexivity].
Defined.

(** X15 at the news flash of the examples, which is on an inter-city
    road with accidents on road 90. *)
Lemma top_road_segments_of_context_empty_witness :
  exists rp,
    get_request_params Demo.env 1 (YearsInt 3) = Return (Some rp)
    /\ TopSegments.get_top_road_segments_accidents_per_km Demo.roads (resolution rp)
         (location_info rp) None None 5 = Return TopSegments.EmptyDict.
Proof.
  eexists. split; [vm_compute; reflexivity|].
  apply (top_road_segments_of_context_empty Demo.env 1 (YearsInt 3)).
  vm_compute. reflexivity.
Defined.

(** X16 at an event that the store does not hold. *)
Lemma get_request_params_unresolved_event_witness :
  get_request_params Demo.env 2 (YearsInt 3) = Return None.
Proof.
  apply (get_request_params_unresolved_event Demo.env 2 (YearsInt 3) 3);
    [reflexivity | lia | left; reflexivity].
Defined.

(** X17 at a news flash whose location fields are null. *)
Lemma get_request_params_no_location_witness :
  get_request_params Demo2.env_without_location 7 (YearsInt 3) = Return None.
Proof.
  apply (get_request_params_no_location Demo2.env_without_location 7 (YearsInt 3) 3
           Demo2.flash_without_location TopSegments.inter_city_road
           "road 90, segment A" ["road1"; "road_segment_name"; "yishuv_name"]).
  - reflexivity.
  - lia.
  - reflexivity.
  - reflexivity.
  - discriminate.
  - vm_compute. reflexivity.
  - repeat constructor.
  - reflexivity.
Defined.

(** X18 at the store without accidents. *)
Lemma get_request_params_without_accidents_witness :
  get_request_params Demo.env_without_accidents 1 (YearsInt 3)
  = Raise (raised AttributeError).
Proof.
  apply (get_request_params_without_accidents Demo.env_without_accidents 1 (YearsInt 3) 3
           Demo2.location1 "road 90, segment A" (VStr TopSegments.inter_city_road)).
  - reflexivity.
  - lia.
  - vm_compute. reflexivity.
  - reflexivity.
  - vm_compute. reflexivity.
  - vm_compute. reflexivity.
  - reflexivity.
Defined.


(** X21 at a town filter. *)
Lemma get_injured_filters_values_witness :
  Dict.lookup (InjuredFilters.new_name "yishuv_name")
    (InjuredFilters.get_injured_filters Demo2.filters) = Some (VStr "town")
  /\ InjuredFilters.new_name "yishuv_name" = "accident_yishuv_name".
Proof.
  split; [|reflexivity].
  apply (get_injured_filters_values Demo2.filters "yishuv_name" (VStr "town")).
  - vm_compute.
    apply List.NoDup_cons; [simpl; intros [H|[]]; discriminate|].
    apply List.NoDup_cons; [simpl; tauto | apply List.NoDup_nil].
  - simpl. tauto.
  - discriminate.
Defined.

(** X26 at the news flash of the examples. *)
Lemma get_head_to_head_stat_conserves_witness :
  exists r,
    HeadOn.get_head_to_head_stat Demo2.comparison Demo2.fatal [Demo.flash] 1
      (Date 2018 1 1) (Date 2020 6 15) = Return r
    /\ exists all_roads_data,
         Demo2.fatal None (Date 2018 1 1) (Date 2020 6 15) = Return all_roads_data
         /\ HeadOn.desc_count_total (HeadOn.all_roads_fatal_accidents r)
            = AccidentType.total all_roads_data.
Proof.
  eexists. split; [vm_compute; reflexivity|].
  apply (get_head_to_head_stat_conserves Demo2.comparison Demo2.fatal [Demo.flash] 1
           (Date 2018 1 1) (Date 2020 6 15)).
  vm_compute. reflexivity.
Defined.

(** X27 at an event that the table does not hold. *)
Lemma get_head_to_head_stat_unknown_event_witness :
  HeadOn.get_head_to_head_stat Demo2.comparison Demo2.fatal [Demo.flash] 2
    (Date 2018 1 1) (Date 2020 6 15) = Raise (raised AttributeError).
Proof.
  refine (proj1 (get_head_to_head_stat_unknown_event Demo2.comparison Demo2.fatal
                   [Demo.flash] 2 (Date 2018 1 1) (Date 2020 6 15) _) _ _);
    reflexivity.
Defined.

(** X28 at the news flash without location. *)
Lemma get_head_to_head_stat_without_road_witness :
  exists r,
    HeadOn.get_head_to_head_stat Demo2.comparison Demo2.fatal
      [Demo2.flash_without_location] 7 (Date 2018 1 1) (Date 2020 6 15) = Return r
    /\ List.map HeadOn.desc_total (HeadOn.specific_road_segment_fatal_accidents r) = [0; 0].
Proof.
  eapply (get_head_to_head_stat_without_road Demo2.comparison Demo2.fatal
           [Demo2.flash_without_location] 7 (Date 2018 1 1) (Date 2020 6 15)
           Demo2.flash_without_location VNone).
  - discriminate.
  - reflexivity.
  - reflexivity.
  - reflexivity.
  - reflexivity.
Defined.

End FurtherExamples.
